(** * BarangayLink front end: the authenticated API client and the auth context

    A shallow embedding of [frontend/src/services/api.js] (the axios
    instance, its request and response interceptors and the pagination
    helpers) and of the [AuthProvider] of the auth context (start-up
    restoration, [logout], [hasRole], [hasAnyRole]).

    JavaScript values are a small tree type, [localStorage] and the default
    headers of the axios instance are finite maps, and every effect of the
    program (storage, default headers, the network, the console, the
    router, the React state of the provider) is threaded through one
    [World] by a state monad.  An [async] function is a computation that
    yields the settlement of its promise. *)

From Stdlib Require Import ZArith String List Bool Lia.
From stdpp Require Import base option gmap strings list fin_maps pretty.
From Equations Require Import Equations.
Import ListNotations.

Set Warnings "-register-all".

Local Open Scope Z_scope.
Local Open Scope string_scope.

(** ** JavaScript values *)

(** Numbers are the integers (what page counters and status codes are);
    objects keep their properties in creation order. *)
Inductive JSValue : Type :=
| JUndefined
| JNull
| JBool (b : bool)
| JNum (n : Z)
| JStr (s : string)
| JArr (items : list JSValue)
| JObj (props : list (string * JSValue)).

Definition Obj : Type := list (string * JSValue).

(** [if (v)]: the falsy values are undefined, null, false, 0 and the
    empty string. *)
Definition truthy (v : JSValue) : bool :=
  match v with
  | JUndefined | JNull => false
  | JBool b => b
  | JNum n => negb (n =? 0)%Z
  | JStr s => negb (String.eqb s "")
  | JArr _ | JObj _ => true
  end.

(** [a || b] *)
Definition js_or (a b : JSValue) : JSValue := if truthy a then a else b.

(** A default parameter [x = d]: the default replaces [undefined], which is
    also what an omitted argument is. *)
Definition js_default (v d : JSValue) : JSValue :=
  match v with JUndefined => d | _ => v end.

Definition is_nullish (v : JSValue) : bool :=
  match v with JUndefined | JNull => true | _ => false end.

(** Lookup of an own property; the first binding of a key is the property. *)
Fixpoint obj_get (k : string) (o : Obj) : JSValue :=
  match o with
  | [] => JUndefined
  | (k', v) :: o' => if String.eqb k k' then v else obj_get k o'
  end.

(** Assignment [o[k] = v]: an existing property keeps its place, a new one
    is created last. *)
Fixpoint obj_set (k : string) (v : JSValue) (o : Obj) : Obj :=
  match o with
  | [] => [(k, v)]
  | (k', v') :: o' =>
      if String.eqb k k' then (k, v) :: o' else (k', v') :: obj_set k v o'
  end.

(** [{ ...target, ...source }] given [target] already built. *)
Definition obj_spread (target source : Obj) : Obj :=
  fold_left (fun acc kv => obj_set (fst kv) (snd kv) acc) source target.

(** [v.k] for the property names this program reads ([data], [pagination],
    [message], [role], [token], [refreshToken]), none of which lives on a
    prototype: reading a property of [undefined] or [null] throws (here
    [None]), a missing property is [undefined]. *)
Definition get_prop (v : JSValue) (k : string) : option JSValue :=
  match v with
  | JUndefined | JNull => None
  | JObj o => Some (obj_get k o)
  | _ => Some JUndefined
  end.

(** [v?.k] *)
Definition optional_prop (v : JSValue) (k : string) : JSValue :=
  match get_prop v k with Some x => x | None => JUndefined end.

(** [a === b].  Objects and arrays are compared by identity in JavaScript;
    the values of this model are literals that never alias one another, so
    two of them are never identical. *)
Definition strict_eq (a b : JSValue) : bool :=
  match a, b with
  | JUndefined, JUndefined => true
  | JNull, JNull => true
  | JBool x, JBool y => Bool.eqb x y
  | JNum x, JNum y => (x =? y)%Z
  | JStr x, JStr y => String.eqb x y
  | _, _ => false
  end.

(** [Array.prototype.includes] compares with SameValueZero, which differs
    from [===] only on NaN. *)
Definition includes (xs : list JSValue) (v : JSValue) : bool :=
  existsb (fun x => strict_eq x v) xs.

(** [String(v)], as a template literal and [localStorage.setItem] apply it. *)
Fixpoint ToString (v : JSValue) : string :=
  match v with
  | JUndefined => "undefined"
  | JNull => "null"
  | JBool true => "true"
  | JBool false => "false"
  | JNum n => pretty n
  | JStr s => s
  | JArr items =>
      String.concat ","
        (List.map (fun x => if is_nullish x then "" else ToString x) items)
  | JObj _ => "[object Object]"
  end.

(** [localStorage.getItem] yields a string or [null]. *)
Definition of_item (i : option string) : JSValue :=
  match i with Some s => JStr s | None => JNull end.

(** ** Requests, responses and errors of axios *)

Inductive Method : Type := GET | POST | PUT | DELETE.

(** A request config.  [_retry] is the marker the response interceptor
    puts on a config it has already retried; a config that does not carry
    the property reads as [undefined], which is falsy like [false]. *)
Record RequestConfig : Type := {
  method : Method;
  baseURL : option string;
  url : string;
  data : JSValue;
  params : JSValue;
  headers : gmap string string;
  _retry : bool
}.

Definition with_baseURL (b : option string) (c : RequestConfig) : RequestConfig :=
  {| method := method c; baseURL := b; url := url c; data := data c;
     params := params c; headers := headers c; _retry := _retry c |}.

Definition with_headers (h : gmap string string) (c : RequestConfig) : RequestConfig :=
  {| method := method c; baseURL := baseURL c; url := url c; data := data c;
     params := params c; headers := h; _retry := _retry c |}.

Definition with_retry (b : bool) (c : RequestConfig) : RequestConfig :=
  {| method := method c; baseURL := baseURL c; url := url c; data := data c;
     params := params c; headers := headers c; _retry := b |}.

(** [config.headers[k] = v] *)
Definition set_header (k v : string) (c : RequestConfig) : RequestConfig :=
  with_headers (<[k := v]> (headers c)) c.

(** A response ([response.config], which nothing reads, is left out). *)
Record Response : Type := {
  response_status : Z;
  response_data : JSValue
}.

(** The error axios rejects with: [error.config], [error.request] (set
    once the request has left) and [error.response] (set when the server
    answered). *)
Record AxiosError : Type := {
  error_message : string;
  error_config : RequestConfig;
  error_request : bool;
  error_response : option Response
}.

Definition with_error_config (c : RequestConfig) (e : AxiosError) : AxiosError :=
  {| error_message := error_message e; error_config := c;
     error_request := error_request e; error_response := error_response e |}.

(** What a promise of this program can reject with. *)
Inductive Thrown : Type :=
| ThrowAxios (e : AxiosError)
| ThrowTypeError (reading : string).  (* property read on undefined or null *)

Inductive Settled (A : Type) : Type :=
| Resolved (a : A)
| Rejected (e : Thrown).
Arguments Resolved {A} a.
Arguments Rejected {A} e.

(** What the network does with a request. *)
Inductive Outcome : Type :=
| Replied (status : Z) (body : JSValue)
| NoReply (msg : string)    (* sent, nothing came back: unreachable, timeout *)
| NotSent (msg : string).   (* failure while the request was set up *)

(** The two axios clients of [api.js]: the configured instance [api], and
    the bare [axios] the refresh call goes through (no interceptors). *)
Inductive Client : Type := ApiInstance | GlobalAxios.

Inductive ToastKind : Type := ToastSuccess | ToastError.

(** Observable actions, in the order they happen. *)
Inductive Event : Type :=
| EvSend (via : Client) (req : RequestConfig)
| EvConsoleError (label : string) (payload : JSValue)
| EvLocation (href : string)            (* window.location.href = href *)
| EvNavigate (path : string)            (* navigate(path) *)
| EvToast (kind : ToastKind) (msg : JSValue).

(** axios settles a reply with its default [validateStatus]: 2xx resolves,
    everything else rejects. *)
Definition settle (config : RequestConfig) (o : Outcome) : Response + AxiosError :=
  match o with
  | Replied status body =>
      let response := {| response_status := status; response_data := body |} in
      if (200 <=? status)%Z && (status <? 300)%Z then inl response
      else inr {| error_message := "Request failed with status code " +:+ pretty status;
                  error_config := config; error_request := true;
                  error_response := Some response |}
  | NoReply msg =>
      inr {| error_message := msg; error_config := config;
             error_request := true; error_response := None |}
  | NotSent msg =>
      inr {| error_message := msg; error_config := config;
             error_request := false; error_response := None |}
  end.

(** [error.response?.status === code] *)
Definition status_is (e : AxiosError) (code : Z) : bool :=
  match error_response e with
  | Some r => (response_status r =? code)%Z
  | None => false
  end.

(** ** The world the program runs in *)

(** The React state of [AuthProvider]. *)
Record AuthState : Type := {
  user : JSValue;
  loading : bool;
  token : JSValue
}.

(** What the program is given by its platform.  The network is a
    deterministic machine with a state of its own: it answers each request
    of either client and moves on. *)
Class Environment : Type := {
  Server : Type;
  respond : Server -> Client -> RequestConfig -> Outcome * Server;
  VITE_API_URL : option string;            (* import.meta.env.VITE_API_URL *)
  JSON_parse : string -> option JSValue    (* JSON.parse; None when it throws *)
}.

Record World (E : Environment) : Type := {
  localStorage : gmap string string;
  defaults_common : gmap string string;   (* api.defaults.headers.common *)
  server : @Server E;
  trace : list Event;
  auth : AuthState
}.
Arguments localStorage {E} w.
Arguments defaults_common {E} w.
Arguments server {E} w.
Arguments trace {E} w.
Arguments auth {E} w.

(** Case analysis that remembers which case it is in. *)
Definition inspect {A : Type} (a : A) : {b : A | a = b} := exist _ a eq_refl.

Section Client.

Context {E : Environment}.

Definition M (A : Type) : Type := World E -> A * World E.

Definition ret {A} (a : A) : M A := fun w => (a, w).

Definition bind {A B} (m : M A) (k : A -> M B) : M B :=
  fun w => let (a, w') := m w in k a w'.

Notation "x <- m ;; k" := (bind m (fun x => k))
  (at level 100, m at next level, right associativity).
Notation "m ;; k" := (bind m (fun _ => k))
  (at level 100, right associativity).

Definition with_storage (f : gmap string string -> gmap string string) (w : World E) : World E :=
  {| localStorage := f (localStorage w); defaults_common := defaults_common w;
     server := server w; trace := trace w; auth := auth w |}.

Definition with_defaults (f : gmap string string -> gmap string string) (w : World E) : World E :=
  {| localStorage := localStorage w; defaults_common := f (defaults_common w);
     server := server w; trace := trace w; auth := auth w |}.

Definition with_event (e : Event) (w : World E) : World E :=
  {| localStorage := localStorage w; defaults_common := defaults_common w;
     server := server w; trace := trace w ++ [e]; auth := auth w |}.

Definition with_server (s : @Server E) (w : World E) : World E :=
  {| localStorage := localStorage w; defaults_common := defaults_common w;
     server := s; trace := trace w; auth := auth w |}.

Definition with_auth (f : AuthState -> AuthState) (w : World E) : World E :=
  {| localStorage := localStorage w; defaults_common := defaults_common w;
     server := server w; trace := trace w; auth := f (auth w) |}.

Definition getItem (k : string) : M JSValue :=
  fun w => (of_item (localStorage w !! k), w).

Definition setItem (k : string) (v : JSValue) : M unit :=
  fun w => (tt, with_storage (insert k (ToString v)) w).

Definition removeItem (k : string) : M unit :=
  fun w => (tt, with_storage (delete k) w).

(** [api.defaults.headers.common[k] = v] *)
Definition set_default_header (k v : string) : M unit :=
  fun w => (tt, with_defaults (insert k v) w).

(** [delete api.defaults.headers.common[k]] *)
Definition delete_default_header (k : string) : M unit :=
  fun w => (tt, with_defaults (delete k) w).

Definition emit (e : Event) : M unit :=
  fun w => (tt, with_event e w).

(** The adapter puts a request on the wire and waits for its outcome. *)
Definition adapter (via : Client) (req : RequestConfig) : M Outcome :=
  fun w =>
    let (o, s') := respond (server w) via req in
    (o, with_server s' (with_event (EvSend via req) w)).

Definition setUser (u : JSValue) : M unit :=
  fun w => (tt, with_auth (fun a => {| user := u; loading := loading a; token := token a |}) w).

Definition setToken (t : JSValue) : M unit :=
  fun w => (tt, with_auth (fun a => {| user := user a; loading := loading a; token := t |}) w).

Definition setLoading (b : bool) : M unit :=
  fun w => (tt, with_auth (fun a => {| user := user a; loading := b; token := token a |}) w).

(** ** [api.js]: the axios instance and its interceptors *)

Definition env_VITE_API_URL : JSValue :=
  match VITE_API_URL with Some s => JStr s | None => JUndefined end.

(** [baseURL: import.meta.env.VITE_API_URL || 'http://localhost:3001/api'] *)
Definition api_baseURL : string :=
  ToString (js_or env_VITE_API_URL (JStr "http://localhost:3001/api")).

(** What axios does before the request interceptors run: the config is
    merged over the defaults of the instance.  A header of the config wins
    over the instance's [Content-Type], which wins over the common
    defaults. *)
Definition merge_config (config : RequestConfig) : M RequestConfig :=
  fun w =>
    (with_headers
       (headers config ∪ {["Content-Type" := "application/json"]} ∪ defaults_common w)
       (with_baseURL
          (match baseURL config with Some b => Some b | None => Some api_baseURL end)
          config),
     w).

(** Request interceptor: attach the stored token. *)
Definition request_interceptor (config : RequestConfig) : M RequestConfig :=
  token <- getItem "token" ;;
  if truthy token
  then ret (set_header "Authorization" ("Bearer " +:+ ToString token) config)
  else ret config.

(** The request the refresh call sends through the bare [axios]. *)
Definition refresh_request (refreshToken : JSValue) : RequestConfig :=
  {| method := POST; baseURL := None;
     url := ToString env_VITE_API_URL +:+ "/auth/refresh-token";
     data := JObj [("refreshToken", refreshToken)];
     params := JUndefined;
     headers := {["Content-Type" := "application/json"]};
     _retry := false |}.

(** One pass through [api(config)] ends either with the promise settled or
    at the tail call [return api(originalRequest)] of the response
    interceptor. *)
Inductive Step : Type :=
| Done (r : Settled Response)
| Retry (originalRequest : RequestConfig).

Definition status_label (status : Z) : string :=
  if (status =? 400)%Z then "Bad Request:"
  else if (status =? 403)%Z then "Forbidden:"
  else if (status =? 404)%Z then "Not Found:"
  else if (status =? 429)%Z then "Too Many Requests:"
  else if (status =? 500)%Z then "Server Error:"
  else "Error " +:+ pretty status +:+ ":".

Definition status_fallback (status : Z) : string :=
  if (status =? 400)%Z then "Invalid request"
  else if (status =? 403)%Z then "Access denied"
  else if (status =? 404)%Z then "Resource not found"
  else if (status =? 429)%Z then "Rate limit exceeded"
  else if (status =? 500)%Z then "Internal server error"
  else "An error occurred".

(** "Handle other errors": log by status, then [Promise.reject(error)].
    [data.message] is read without a guard, so it throws when the body is
    [null] or [undefined]. *)
Definition report_error (error : AxiosError) : M (Settled Response) :=
  match error_response error with
  | Some response =>
      let status := response_status response in
      match get_prop (response_data response) "message" with
      | Some message =>
          emit (EvConsoleError (status_label status)
                  (js_or message (JStr (status_fallback status)))) ;;
          ret (Rejected (ThrowAxios error))
      | None => ret (Rejected (ThrowTypeError "message"))
      end
  | None =>
      if error_request error
      then emit (EvConsoleError "Network Error:"
                   (JStr "No response from server. Please check your connection.")) ;;
           ret (Rejected (ThrowAxios error))
      else emit (EvConsoleError "Request Error:" (JStr (error_message error))) ;;
           ret (Rejected (ThrowAxios error))
  end.

(** The [catch (refreshError)] block. *)
Definition refresh_failed (refreshError : Thrown) : M (Settled Response) :=
  removeItem "token" ;;
  removeItem "refreshToken" ;;
  removeItem "user" ;;
  emit (EvLocation "/login") ;;
  ret (Rejected refreshError).

(** The interceptor returns a settled promise. *)
Definition done (m : M (Settled Response)) : M Step :=
  settled <- m ;; ret (Done settled).

(** Response interceptor, error side.  [originalRequest] is [error.config]
    itself, so the marker set on it is seen through [error] too.  The
    retried call is returned without being awaited, so its rejection goes
    to the caller and not to the [catch] block. *)
Definition response_error_interceptor (error : AxiosError) : M Step :=
  let originalRequest := error_config error in
  if status_is error 401 && negb (_retry originalRequest) then
    let originalRequest := with_retry true originalRequest in
    let error := with_error_config originalRequest error in
    refreshToken <- getItem "refreshToken" ;;
    if truthy refreshToken then
      outcome <- adapter GlobalAxios (refresh_request refreshToken) ;;
      match settle (refresh_request refreshToken) outcome with
      | inl response =>
          match get_prop (response_data response) "token",
                get_prop (response_data response) "refreshToken" with
          | Some token, Some newRefreshToken =>
              setItem "token" token ;;
              setItem "refreshToken" newRefreshToken ;;
              set_default_header "Authorization" ("Bearer " +:+ ToString token) ;;
              ret (Retry (set_header "Authorization" ("Bearer " +:+ ToString token)
                            originalRequest))
          | _, _ => done (refresh_failed (ThrowTypeError "token"))
          end
      | inr refreshError => done (refresh_failed (ThrowAxios refreshError))
      end
    else done (report_error error)
  else done (report_error error).

(** [api(config)] up to the first settlement or tail call. *)
Definition dispatch (config : RequestConfig) : M Step :=
  merged <- merge_config config ;;
  config <- request_interceptor merged ;;
  outcome <- adapter ApiInstance config ;;
  match settle config outcome with
  | inl response => ret (Done (Resolved response))
  | inr error => response_error_interceptor error
  end.

(** The request as it leaves: merged and through the request interceptor. *)
Definition wire_request (config : RequestConfig) (w : World E) : RequestConfig :=
  fst ((merged <- merge_config config ;; request_interceptor merged) w).

Definition retry_budget (config : RequestConfig) : nat :=
  if _retry config then 0%nat else 1%nat.

(** [api(config)]: the recursion of the source is the tail call of the
    response interceptor, and it is well founded because of the marker. *)
Equations? api (config : RequestConfig) (w : World E) : Settled Response * World E
  by wf (retry_budget config) lt :=
  api config w with inspect (dispatch config w) => {
    | exist _ (Done r, w') _ := (r, w');
    | exist _ (Retry originalRequest, w') H := api originalRequest w' }.
Proof.
  (* a pass ends at the tail call only for a config that was not marked,
     and the config it hands on is marked *)
  cut (_retry config = false /\ _retry originalRequest = true).
  { intros [H0 H1]. unfold retry_budget. rewrite H0, H1. lia. }
  revert H. unfold dispatch, bind.
  assert (Hr : _retry (wire_request config w) = _retry config).
  { unfold wire_request, bind, merge_config, request_interceptor, bind, getItem, ret.
    simpl. destruct (truthy _); reflexivity. }
  unfold wire_request, bind in Hr.
  destruct (merge_config config w) as [merged w1].
  destruct (request_interceptor merged w1) as [config1 w2]. simpl in Hr.
  destruct (adapter ApiInstance config1 w2) as [outcome w3].
  destruct (settle config1 outcome) as [response|error] eqn:Hs; [discriminate|].
  assert (Hc : error_config error = config1).
  { destruct outcome; simpl in Hs; try (injection Hs as <-; reflexivity).
    destruct (_ && _); [discriminate|]. injection Hs as <-. reflexivity. }
  unfold response_error_interceptor, done, report_error, refresh_failed, bind, ret.
  rewrite Hc, Hr.
  repeat match goal with
  | |- context [match ?x with _ => _ end] => destruct x eqn:?; simpl
  | |- context [if ?x then _ else _] => destruct x eqn:?; simpl
  end; try discriminate.
  intros [= <- <-]; split; [|reflexivity].
  match goal with
  | Hb : _ && negb _ = true |- _ =>
      apply andb_true_iff in Hb as [_ Hb]; apply negb_true_iff in Hb; exact Hb
  end.
Qed.

(** [api.get(url, { params })], [api.get(url)] when [params] is undefined. *)
Definition api_get (endpoint : string) (query : JSValue) : M (Settled Response) :=
  api {| method := GET; baseURL := None; url := endpoint; data := JUndefined;
         params := query; headers := ∅; _retry := false |}.

(** [api.post(url, body)] *)
Definition api_post (endpoint : string) (body : JSValue) : M (Settled Response) :=
  api {| method := POST; baseURL := None; url := endpoint; data := body;
         params := JUndefined; headers := ∅; _retry := false |}.

(** Helper function for paginated requests. *)
Definition paginatedRequest (endpoint : string) (params : JSValue) : M (Settled JSValue) :=
  let params := js_default params (JObj []) in
  awaited <- api_get endpoint params ;;
  match awaited with
  | Resolved response =>
      match get_prop (response_data response) "data",
            get_prop (response_data response) "pagination" with
      | Some d, Some p => ret (Resolved (JObj [("data", d); ("pagination", p)]))
      | _, _ => ret (Rejected (ThrowTypeError "data"))
      end
  | Rejected e => ret (Rejected e)
  end.

(** Helper function for infinite scroll.  [params] is an object, or [None]
    for [undefined]. *)
Definition infiniteScrollRequest (endpoint : string) (page limit : JSValue)
    (params : option Obj) : M (Settled JSValue) :=
  let limit := js_default limit (JNum 20) in
  let params := match params with Some o => o | None => [] end in
  paginatedRequest endpoint
    (JObj (obj_spread [("page", page); ("limit", limit)] params)).

(** ** The auth context: [AuthProvider] *)

(** The [useState] initialisers, run when the provider mounts. *)
Definition AuthProvider_mount : M unit :=
  stored <- getItem "token" ;;
  fun w => (tt, with_auth (fun _ => {| user := JNull; loading := true; token := stored |}) w).

(** The [catch] block of [initializeAuth]. *)
Definition initializeAuth_catch : M unit :=
  removeItem "token" ;;
  removeItem "user" ;;
  delete_default_header "Authorization".

Definition initializeAuth : M (Settled unit) :=
  storedToken <- getItem "token" ;;
  storedUser <- getItem "user" ;;
  (if truthy storedToken && truthy storedUser then
     set_default_header "Authorization" ("Bearer " +:+ ToString storedToken) ;;
     verified <- api_get "/auth/verify" JUndefined ;;
     match verified with
     | Resolved _ =>
         setToken storedToken ;;
         match JSON_parse (ToString storedUser) with
         | Some parsed => setUser parsed
         | None => initializeAuth_catch       (* JSON.parse threw *)
         end
     | Rejected _ => initializeAuth_catch     (* token is invalid or expired *)
     end
   else ret tt) ;;
  setLoading false ;;
  ret (Resolved tt).

(** Start-up: the provider mounts, then its effect runs [initializeAuth]. *)
Definition startup : M (Settled unit) :=
  AuthProvider_mount ;;
  initializeAuth.

(** The [finally] block of [logout]. *)
Definition logout_finally : M unit :=
  removeItem "token" ;;
  removeItem "user" ;;
  delete_default_header "Authorization" ;;
  setToken JNull ;;
  setUser JNull ;;
  emit (EvNavigate "/login") ;;
  emit (EvToast ToastSuccess (JStr "Logged out successfully")).

Definition logout : M (Settled unit) :=
  notified <- api_post "/auth/logout" JUndefined ;;
  match notified with
  | Resolved _ => logout_finally ;; ret (Resolved tt)
  | Rejected _ => (* ignore logout errors *) logout_finally ;; ret (Resolved tt)
  end.

(** [user?.role === role] *)
Definition hasRole (a : AuthState) (role : JSValue) : bool :=
  strict_eq (optional_prop (user a) "role") role.

(** [roles.includes(user?.role)] *)
Definition hasAnyRole (a : AuthState) (roles : list JSValue) : bool :=
  includes roles (optional_prop (user a) "role").

(** ** Observing a run *)

(** The events a computation adds to the trace. *)
Definition events_during {A} (m : M A) (w : World E) : list Event :=
  drop (length (trace w)) (trace (snd (m w))).

(** The requests among some events, in order, with the client they left
    through. *)
Fixpoint sends (evs : list Event) : list (Client * RequestConfig) :=
  match evs with
  | [] => []
  | EvSend via req :: evs' => (via, req) :: sends evs'
  | _ :: evs' => sends evs'
  end.

(** A refresh attempt is a request through the bare [axios]: the refresh
    call is its only use. *)
Definition is_refresh (e : Event) : bool :=
  match e with EvSend GlobalAxios _ => true | _ => false end.

(** A retry is a request of the instance whose config carries the marker. *)
Definition is_retry (e : Event) : bool :=
  match e with EvSend ApiInstance req => _retry req | _ => false end.

Definition refresh_attempts (evs : list Event) : nat :=
  length (List.filter is_refresh evs).

Definition retries (evs : list Event) : nat :=
  length (List.filter is_retry evs).

(** The answer to the request [api(config)] sends first, and the world
    once that answer is in. *)
Definition first_reply (config : RequestConfig) (w : World E) : Outcome :=
  fst (adapter ApiInstance (wire_request config w) w).

Definition after_first (config : RequestConfig) (w : World E) : World E :=
  snd (adapter ApiInstance (wire_request config w) w).

Definition stored_refresh_token (w : World E) : JSValue :=
  of_item (localStorage w !! "refreshToken").

(** The answer a refresh call gets when it follows that first request. *)
Definition refresh_reply (config : RequestConfig) (w : World E) : Outcome :=
  fst (adapter GlobalAxios (refresh_request (stored_refresh_token w))
         (after_first config w)).

Definition after_refresh (config : RequestConfig) (w : World E) : World E :=
  snd (adapter GlobalAxios (refresh_request (stored_refresh_token w))
         (after_first config w)).

(** An error outcome other than a 401 reply. *)
Definition non_auth_error (o : Outcome) : Prop :=
  match o with
  | Replied status _ => ((status < 200)%Z \/ (300 <= status)%Z) /\ status <> 401%Z
  | NoReply _ | NotSent _ => True
  end.

(** The refresh protocol succeeds when the refresh endpoint answers 2xx
    with a body the two tokens can be read from. *)
Definition refresh_succeeds (o : Outcome) : bool :=
  match o with
  | Replied status body =>
      (200 <=? status)%Z && (status <? 300)%Z && negb (is_nullish body)
  | NoReply _ | NotSent _ => false
  end.

(** What the [catch] block of the interceptor receives when the refresh
    does not succeed: the error of the refresh call, or the [TypeError] of
    the destructuring of an empty body. *)
Definition refresh_error (rt : JSValue) (o : Outcome) : Thrown :=
  match settle (refresh_request rt) o with
  | inl _ => ThrowTypeError "token"
  | inr refreshError => ThrowAxios refreshError
  end.

(** The two tokens of a refresh answer. *)
Definition new_token (o : Outcome) : JSValue :=
  match o with Replied _ body => optional_prop body "token" | _ => JUndefined end.

Definition new_refresh_token (o : Outcome) : JSValue :=
  match o with Replied _ body => optional_prop body "refreshToken" | _ => JUndefined end.

(** After a successful refresh: the request the interceptor hands back to
    [api], and the world it does so in. *)
Definition retried_request (config : RequestConfig) (w : World E) : RequestConfig :=
  set_header "Authorization"
    ("Bearer " +:+ ToString (new_token (refresh_reply config w)))
    (with_retry true (wire_request config w)).

Definition refreshed (config : RequestConfig) (w : World E) : World E :=
  with_defaults
    (insert "Authorization" ("Bearer " +:+ ToString (new_token (refresh_reply config w))))
    (with_storage
       (insert "refreshToken" (ToString (new_refresh_token (refresh_reply config w))))
       (with_storage
          (insert "token" (ToString (new_token (refresh_reply config w))))
          (after_refresh config w))).

(** The line the interceptor writes to the console for an error outcome:
    its classification of the error. *)
Definition console_line (o : Outcome) : Event :=
  match o with
  | Replied status body =>
      EvConsoleError (status_label status)
        (js_or (optional_prop body "message") (JStr (status_fallback status)))
  | NoReply _ =>
      EvConsoleError "Network Error:"
        (JStr "No response from server. Please check your connection.")
  | NotSent msg => EvConsoleError "Request Error:" (JStr msg)
  end.

(** The reply, if there is one, has a body other than [null] and
    [undefined]. *)
Definition has_body (o : Outcome) : bool :=
  match o with
  | Replied _ body => negb (is_nullish body)
  | NoReply _ | NotSent _ => true
  end.

(** Storage, default headers and the React state are the same in both
    worlds. *)
Definition untouched (w w' : World E) : Prop :=
  localStorage w' = localStorage w /\
  defaults_common w' = defaults_common w /\
  auth w' = auth w.

(** The requests that go out, in order, for a call whose first answer is
    a 401: the request itself; then, for a config without the marker and
    with a refresh token in storage, the refresh call; then, when the
    refresh succeeded, the marked request. *)
Definition expected_requests (config : RequestConfig) (w : World E)
    : list (Client * RequestConfig) :=
  let first := (ApiInstance, wire_request config w) in
  let refresh := (GlobalAxios, refresh_request (stored_refresh_token w)) in
  if _retry config then [first]
  else if truthy (stored_refresh_token w) then
    if refresh_succeeds (refresh_reply config w)
    then [first; refresh;
          (ApiInstance, wire_request (retried_request config w) (refreshed config w))]
    else [first; refresh]
  else [first].

(** The world in which start-up sends its verification request: the
    provider has mounted and the default header carries the stored token. *)
Definition verifying (w : World E) : World E :=
  snd ((AuthProvider_mount ;;
        set_default_header "Authorization"
          ("Bearer " +:+ ToString (of_item (localStorage w !! "token")))) w).

(** Events that are console lines only. *)
Definition only_console (evs : list Event) : Prop :=
  Forall (fun e => exists label payload, e = EvConsoleError label payload) evs.

(** The response interceptor starts the refresh protocol for a call: its
    first answer is a 401, its config is not marked and a refresh token is
    in storage. *)
Definition refresh_attempted (config : RequestConfig) (w : World E) : bool :=
  match first_reply config w with
  | Replied status _ =>
      (status =? 401)%Z && negb (_retry config) && truthy (stored_refresh_token w)
  | NoReply _ | NotSent _ => false
  end.

(** What storage holds under [refreshToken] once a call is over: the
    renewed refresh token after a refresh that succeeded, nothing after
    one that failed, and what it held before when none was attempted. *)
Definition refresh_token_after (config : RequestConfig) (w : World E) : option string :=
  if refresh_attempted config w then
    if refresh_succeeds (refresh_reply config w)
    then Some (ToString (new_refresh_token (refresh_reply config w)))
    else None
  else localStorage w !! "refreshToken".

End Client.

(** ** Scenarios *)

(** Concrete environments and worlds the statements below are run on. *)

(** A network that follows a script: the n-th request, whichever client
    sends it, gets the n-th outcome, and nothing comes back once the script
    is over. *)
Definition scripted (script : list Outcome) : Environment :=
  {| Server := nat;
     respond := fun n _ _ => (nth n script (NoReply "Network Error"), S n);
     VITE_API_URL := Some "http://localhost:3001/api";
     JSON_parse := fun text => if String.eqb text "{}" then Some (JObj []) else None |}.

(** The world at page load: nothing sent yet, no default header set. *)
Definition page_load (script : list Outcome) (storage : gmap string string)
    : World (scripted script) :=
  {| localStorage := storage; defaults_common := ∅;
     server := (0%nat : @Server (scripted script)); trace := [];
     auth := {| user := JNull; loading := true; token := JNull |} |}.

Definition get_requests : RequestConfig :=
  {| method := GET; baseURL := None; url := "/requests"; data := JUndefined;
     params := JUndefined; headers := ∅; _retry := false |}.

Definition expired : Outcome := Replied 401 (JObj [("message", JStr "Token expired")]).

Definition renewed : Outcome :=
  Replied 200 (JObj [("token", JStr "t2"); ("refreshToken", JStr "r2")]).

Definition listing : Outcome :=
  Replied 200
    (JObj [("data", JArr [JStr "a"; JStr "b"]);
           ("pagination",
            JObj [("page", JNum 1); ("limit", JNum 20); ("total", JNum 2);
                  ("pages", JNum 1)])]).

Definition stored_session : gmap string string :=
  {["token" := "t1"; "refreshToken" := "r1"; "user" := "{}"]}.

Definition not_found : Outcome := Replied 404 (JObj [("message", JStr "No such request")]).

(** A 400 whose JSON body is [null]. *)
Definition bad_request_null : Outcome := Replied 400 JNull.

(** Storage of a session that has no refresh token. *)
Definition session_without_refresh : gmap string string :=
  {["token" := "t1"; "user" := "{}"]}.

Definition server_error : Outcome :=
  Replied 500 (JObj [("message", JStr "Internal error")]).

Definition nobody : AuthState := {| user := JNull; loading := false; token := JNull |}.

Definition an_admin : AuthState :=
  {| user := JObj [("id", JNum 7); ("role", JStr "ADMIN")]; loading := false;
     token := JStr "t1" |}.



(** ** The rest of the auth context *)

(** [JSON.stringify] is given by the platform, like [JSON.parse]: it
    yields a string, or [undefined] for a value that has no JSON text. *)
Section AuthOperations.

Context {E : Environment}.
Variable JSON_stringify : JSValue -> JSValue.

Notation "x <- m ;; k" := (bind m (fun x => k))
  (at level 100, m at next level, right associativity).
Notation "m ;; k" := (bind m (fun _ => k))
  (at level 100, right associativity).

(** [error.response?.data?.message], for whatever was thrown: only an
    axios error that came with a response has one. *)
Definition response_message (error : Thrown) : JSValue :=
  match error with
  | ThrowAxios e =>
      match error_response e with
      | Some response => optional_prop (response_data response) "message"
      | None => JUndefined
      end
  | ThrowTypeError _ => JUndefined
  end.

(** The [catch] block the operations of the provider share in shape:
    [toast.error(message); return { success: false, message }]. *)
Definition report_failure (error : Thrown) (fallback : string) : M JSValue :=
  let message := js_or (response_message error) (JStr fallback) in
  emit (EvToast ToastError message) ;;
  ret (JObj [("success", JBool false); ("message", message)]).

Definition success : JSValue := JObj [("success", JBool true)].

Definition login (email password : JSValue) : M (Settled JSValue) :=
  setLoading true ;;
  awaited <- api_post "/auth/login" (JObj [("email", email); ("password", password)]) ;;
  result <-
    match awaited with
    | Resolved response =>
        match get_prop (response_data response) "token",
              get_prop (response_data response) "user" with
        | Some newToken, Some userData =>
            setItem "token" newToken ;;
            setItem "user" (JSON_stringify userData) ;;
            set_default_header "Authorization" ("Bearer " +:+ ToString newToken) ;;
            setToken newToken ;;
            setUser userData ;;
            emit (EvToast ToastSuccess (JStr "Login successful!")) ;;
            emit (EvNavigate "/dashboard") ;;
            ret success
        | _, _ =>
            report_failure (ThrowTypeError "token") "Login failed. Please try again."
        end
    | Rejected error => report_failure error "Login failed. Please try again."
    end ;;
  setLoading false ;;
  ret (Resolved result).

Definition register (userData : JSValue) : M (Settled JSValue) :=
  setLoading true ;;
  awaited <- api_post "/auth/register" userData ;;
  result <-
    match awaited with
    | Resolved response =>
        emit (EvToast ToastSuccess
                (JStr "Registration successful! Please check your email for verification.")) ;;
        match get_prop (response_data response) "token" with
        | Some newToken =>
            if truthy newToken then
              (* auto login after registration *)
              setItem "token" newToken ;;
              match get_prop (response_data response) "user" with
              | Some newUser =>
                  setItem "user" (JSON_stringify newUser) ;;
                  set_default_header "Authorization" ("Bearer " +:+ ToString newToken) ;;
                  setToken newToken ;;
                  setUser newUser ;;
                  emit (EvNavigate "/dashboard") ;;
                  ret success
              | None =>
                  report_failure (ThrowTypeError "user")
                    "Registration failed. Please try again."
              end
            else
              emit (EvNavigate "/login") ;;
              ret success
        | None =>
            report_failure (ThrowTypeError "token")
              "Registration failed. Please try again."
        end
    | Rejected error => report_failure error "Registration failed. Please try again."
    end ;;
  setLoading false ;;
  ret (Resolved result).

(** The own enumerable properties a spread copies: those of an object,
    the items of an array and the characters of a string under their
    indices, none for anything else. *)
Definition spread_source (v : JSValue) : Obj :=
  match v with
  | JObj props => props
  | JArr items => imap (fun i x => (pretty i, x)) items
  | JStr s =>
      imap (fun i c => (pretty i, JStr (String c EmptyString))) (list_ascii_of_string s)
  | _ => []
  end.

(** Update user profile: [{ ...user, ...updatedUser }] goes to the state
    and, as JSON, to storage.  [user] is the state the provider last
    rendered with. *)
Definition updateUser (updatedUser : JSValue) : M unit :=
  fun w =>
    let newUser :=
      JObj (obj_spread (obj_spread [] (spread_source (user (auth w))))
              (spread_source updatedUser)) in
    (setUser newUser ;; setItem "user" (JSON_stringify newUser)) w.

Definition forgotPassword (email : JSValue) : M (Settled JSValue) :=
  awaited <- api_post "/auth/forgot-password" (JObj [("email", email)]) ;;
  match awaited with
  | Resolved _ =>
      emit (EvToast ToastSuccess
              (JStr "Password reset instructions sent to your email")) ;;
      ret (Resolved success)
  | Rejected error =>
      result <- report_failure error "Failed to send reset instructions" ;;
      ret (Resolved result)
  end.

Definition resetPassword (resetToken password : JSValue) : M (Settled JSValue) :=
  awaited <- api_post "/auth/reset-password"
               (JObj [("token", resetToken); ("password", password)]) ;;
  match awaited with
  | Resolved _ =>
      emit (EvToast ToastSuccess
              (JStr "Password reset successful. You can now login with your new password.")) ;;
      ret (Resolved success)
  | Rejected error =>
      result <- report_failure error "Failed to reset password" ;;
      ret (Resolved result)
  end.

Definition verifyEmail (emailToken : JSValue) : M (Settled JSValue) :=
  awaited <- api_post "/auth/verify-email" (JObj [("token", emailToken)]) ;;
  match awaited with
  | Resolved _ =>
      emit (EvToast ToastSuccess (JStr "Email verified successfully!")) ;;
      ret (Resolved success)
  | Rejected error =>
      result <- report_failure error "Failed to verify email" ;;
      ret (Resolved result)
  end.

End AuthOperations.

(** ** The dashboard page *)

Section DashboardPage.

Context {E : Environment}.

Notation "x <- m ;; k" := (bind m (fun x => k))
  (at level 100, m at next level, right associativity).

(** The three [queryFn]s: [response.data.data], then for the two lists a
    property of it, each read without a guard. *)
Definition dashboard_query : M (Settled JSValue) :=
  awaited <- api_get "/dashboard" JUndefined ;;
  match awaited with
  | Resolved response =>
      match get_prop (response_data response) "data" with
      | Some d => ret (Resolved d)
      | None => ret (Rejected (ThrowTypeError "data"))
      end
  | Rejected e => ret (Rejected e)
  end.

Definition list_query (endpoint property : string) : M (Settled JSValue) :=
  awaited <- api_get endpoint JUndefined ;;
  match awaited with
  | Resolved response =>
      match get_prop (response_data response) "data" with
      | Some d =>
          match get_prop d property with
          | Some items => ret (Resolved items)
          | None => ret (Rejected (ThrowTypeError property))
          end
      | None => ret (Rejected (ThrowTypeError "data"))
      end
  | Rejected e => ret (Rejected e)
  end.

Definition recent_requests_query : M (Settled JSValue) :=
  list_query "/requests?limit=5&sortBy=createdAt&sortOrder=desc" "requests".

Definition upcoming_events_query : M (Settled JSValue) :=
  list_query "/events?limit=3&status=UPCOMING" "events".

End DashboardPage.

(** [prev => [notification, ...prev.slice(0, 9)]] *)
Definition push_notification (notification : JSValue) (prev : list JSValue)
    : list JSValue :=
  notification :: take 9 prev.

(** The listener of [new-request].  [user.role] is read without a guard,
    and so are the two properties of [request] the message is made of;
    [now] is the [new Date()] of the moment. *)
Definition on_new_request (now : JSValue) (currentUser request : JSValue)
    (prev : list JSValue) : Thrown + list JSValue :=
  match get_prop currentUser "role" with
  | None => inl (ThrowTypeError "role")
  | Some role =>
      if strict_eq role (JStr "ADMIN") || strict_eq role (JStr "MODERATOR") then
        match get_prop request "category", get_prop request "title" with
        | Some category, Some title =>
            inr (push_notification
                   (JObj [("type", JStr "new-request");
                          ("title", JStr "New Request");
                          ("message",
                           JStr ("New " +:+ ToString category +:+ " request: "
                                 +:+ ToString title));
                          ("timestamp", now)])
                   prev)
        | _, _ => inl (ThrowTypeError "category")
        end
      else inr prev
  end.

(** ** More scenarios *)

(** [JSON.stringify] on values whose strings need no escaping: the
    serializer the scenarios run with. *)
Fixpoint stringify_plain (v : JSValue) : JSValue :=
  let quote := String (Ascii.ascii_of_nat 34) EmptyString in
  let text x := match stringify_plain x with JStr s => s | _ => "null" end in
  match v with
  | JUndefined => JUndefined
  | JNull => JStr "null"
  | JBool true => JStr "true"
  | JBool false => JStr "false"
  | JNum n => JStr (pretty n)
  | JStr s => JStr (quote +:+ s +:+ quote)
  | JArr items => JStr ("[" +:+ String.concat "," (List.map text items) +:+ "]")
  | JObj props =>
      JStr ("{" +:+
            String.concat ","
              ((fix members (ps : list (string * JSValue)) : list string :=
                  match ps with
                  | [] => []
                  | (_, JUndefined) :: ps' => members ps'
                  | (k, x) :: ps' =>
                      (quote +:+ k +:+ quote +:+ ":" +:+ text x) :: members ps'
                  end) props)
            +:+ "}")
  end.

Definition signed_in : Outcome :=
  Replied 200
    (JObj [("token", JStr "t9");
           ("user", JObj [("id", JNum 7); ("role", JStr "MEMBER")])]).

(** A 2xx answer to a login that carries a user and no token. *)
Definition signed_in_without_token : Outcome :=
  Replied 200 (JObj [("user", JObj [("id", JNum 7)])]).

Definition wrong_password : Outcome :=
  Replied 400 (JObj [("message", JStr "Invalid credentials")]).

(** A refresh answer that renews the token and names no refresh token. *)
Definition renewed_token_only : Outcome := Replied 200 (JObj [("token", JStr "t2")]).

Definition registered_unverified : Outcome :=
  Replied 201 (JObj [("message", JStr "Check your email")]).

(** A 2xx answer whose body has no [data]. *)
Definition bare_ok : Outcome := Replied 200 (JObj [("success", JBool true)]).

(** The scripted network of a build that was given no [VITE_API_URL]. *)
Definition unconfigured (script : list Outcome) : Environment :=
  {| Server := nat;
     respond := fun n _ _ => (nth n script (NoReply "Network Error"), S n);
     VITE_API_URL := None;
     JSON_parse := fun text => if String.eqb text "{}" then Some (JObj []) else None |}.

Definition page_load_unconfigured (script : list Outcome) (storage : gmap string string)
    : World (unconfigured script) :=
  {| localStorage := storage; defaults_common := ∅;
     server := (0%nat : @Server (unconfigured script)); trace := [];
     auth := {| user := JNull; loading := true; token := JNull |} |}.

(** A 2xx answer with a [null] body. *)
Definition empty_ok : Outcome := Replied 200 JNull.

(** A session whose stored user is not JSON. *)
Definition corrupt_session : gmap string string :=
  {["token" := "t1"; "user" := "oops"]}.

(** A token left in storage without a user. *)
Definition token_only : gmap string string := {["token" := "t1"]}.

Definition a_member : JSValue := JObj [("id", JNum 3); ("role", JStr "MEMBER")].

Definition a_moderator : JSValue := JObj [("id", JNum 4); ("role", JStr "MODERATOR")].

Definition a_request : JSValue :=
  JObj [("category", JStr "FOOD"); ("title", JStr "Rice for ten families")].


(** * Properties *)

(** ** Object literals *)

Lemma obj_get_set (k k' : string) (v : JSValue) (o : Obj) :
  obj_get k (obj_set k' v o) = if String.eqb k k' then v else obj_get k o.
Proof.
  induction o as [|[k0 v0] o IH]; simpl.
  - reflexivity.
  - destruct (String.eqb k' k0) eqn:H0; simpl.
    + apply String.eqb_eq in H0. subst k0. destruct (String.eqb k k'); reflexivity.
    + destruct (String.eqb k k0) eqn:H1; [|exact IH].
      apply String.eqb_eq in H1. subst k0.
      rewrite String.eqb_sym, H0. reflexivity.
Qed.

Lemma obj_set_fresh (k : string) (v : JSValue) (o : Obj) :
  ~ In k (List.map fst o) -> obj_set k v o = (o ++ [(k, v)])%list.
Proof.
  induction o as [|[k0 v0] o IH]; simpl; intros Hk.
  - reflexivity.
  - destruct (String.eqb k k0) eqn:H0.
    + apply String.eqb_eq in H0. subst k0. exfalso. apply Hk. left. reflexivity.
    + rewrite IH; [reflexivity|]. intros Hin. apply Hk. right. exact Hin.
Qed.

(** Spreading an object whose keys are distinct and new appends its
    properties: [{ page, limit, ...params }] is [page], [limit], then the
    properties of [params]. *)
Lemma obj_spread_fresh (target source : Obj) :
  List.NoDup (List.map fst source) ->
  (forall k, In k (List.map fst source) -> ~ In k (List.map fst target)) ->
  obj_spread target source = (target ++ source)%list.
Proof.
  unfold obj_spread. revert target.
  induction source as [|[k v] source IH]; simpl; intros target Hnd Hfresh.
  - rewrite app_nil_r. reflexivity.
  - inversion Hnd as [|? ? Hk Hnd']; subst.
    rewrite obj_set_fresh by (apply Hfresh; auto).
    rewrite IH, <- app_assoc; [reflexivity|exact Hnd'|].
    intros k' Hk'. rewrite List.map_app, in_app_iff. simpl.
    intros [Hin|[<-|[]]]; [eapply Hfresh; eauto|contradiction].
Qed.

(** ** How a call through [api] runs *)

Section Facts.

Context {E : Environment}.

Lemma api_step (config : RequestConfig) (w : World E) :
  api config w =
  match dispatch config w with
  | (Done r, w') => (r, w')
  | (Retry originalRequest, w') => api originalRequest w'
  end.
Proof.
  rewrite api_equation_1.
  assert (G : forall x : {b : Step * World E | dispatch config w = b},
             api_unfold_clause_1 config w x =
             match proj1_sig x with
             | (Done r, w') => (r, w')
             | (Retry originalRequest, w') => api originalRequest w'
             end).
  { intros [[[r|c] w'] e]; reflexivity. }
  apply G.
Qed.

Lemma dispatch_eq (config : RequestConfig) (w : World E) :
  dispatch config w =
  match settle (wire_request config w) (first_reply config w) with
  | inl response => (Done (Resolved response), after_first config w)
  | inr error => response_error_interceptor error (after_first config w)
  end.
Proof.
  unfold dispatch, first_reply, after_first, wire_request, bind,
    merge_config, request_interceptor, bind, getItem, ret.
  destruct (truthy _); simpl;
    destruct (adapter ApiInstance _ w) as [o w1]; cbn [fst snd];
    destruct (settle _ o); reflexivity.
Qed.

Lemma settle_error_config req o error :
  settle req o = inr error -> error_config error = req.
Proof.
  destruct o; simpl; try (intros [= <-]; reflexivity).
  destruct (_ && _); [discriminate|]. intros [= <-]. reflexivity.
Qed.

Lemma wire_request_retry (config : RequestConfig) (w : World E) :
  _retry (wire_request config w) = _retry config.
Proof.
  unfold wire_request, bind, merge_config, request_interceptor, bind, getItem, ret.
  simpl. destruct (truthy _); reflexivity.
Qed.

Lemma done_eq (m : M (Settled Response)) (w : World E) :
  done m w = (Done (fst (m w)), snd (m w)).
Proof. unfold done, bind, ret. destruct (m w); reflexivity. Qed.

(** The call settles at once when the first answer is a success. *)
Lemma api_first_success config (w : World E) response :
  settle (wire_request config w) (first_reply config w) = inl response ->
  api config w = (Resolved response, after_first config w).
Proof. intros H. rewrite api_step, dispatch_eq, H. reflexivity. Qed.

(** An error that is not a 401, or comes back for a marked config, is
    reported and rejected. *)
Lemma api_reported config (w : World E) error :
  settle (wire_request config w) (first_reply config w) = inr error ->
  status_is error 401 && negb (_retry config) = false ->
  api config w = report_error error (after_first config w).
Proof.
  intros H Hc. rewrite api_step, dispatch_eq, H.
  unfold response_error_interceptor.
  rewrite (settle_error_config _ _ _ H), wire_request_retry, Hc, done_eq.
  destruct (report_error _ _); reflexivity.
Qed.

Lemma after_first_stored_refresh_token config (w : World E) :
  stored_refresh_token (after_first config w) = stored_refresh_token w.
Proof.
  unfold stored_refresh_token, after_first, adapter.
  destruct (respond _ _ _); reflexivity.
Qed.

(** A first 401 with no refresh token in storage: the config is marked and
    the error is reported and rejected. *)
Lemma api_no_refresh_token config (w : World E) error :
  settle (wire_request config w) (first_reply config w) = inr error ->
  status_is error 401 = true -> _retry config = false ->
  truthy (stored_refresh_token w) = false ->
  api config w =
  report_error (with_error_config (with_retry true (wire_request config w)) error)
    (after_first config w).
Proof.
  intros H H401 Hr Ht. rewrite api_step, dispatch_eq, H.
  unfold response_error_interceptor.
  rewrite (settle_error_config _ _ _ H), wire_request_retry, H401, Hr.
  cbn [andb negb]. unfold bind at 1. unfold getItem at 1.
  fold (stored_refresh_token (after_first config w)).
  rewrite after_first_stored_refresh_token, Ht, done_eq.
  destruct (report_error _ _); reflexivity.
Qed.


Lemma report_error_cases error (w : World E) :
  report_error error w = (Rejected (ThrowTypeError "message"), w) \/
  exists label payload,
    report_error error w =
    (Rejected (ThrowAxios error), with_event (EvConsoleError label payload) w).
Proof.
  unfold report_error, bind, emit, ret.
  destruct (error_response error) as [response|].
  - destruct (get_prop _ _); [right; eauto | left; reflexivity].
  - destruct (error_request error); right; eauto.
Qed.

Lemma api_refresh_failed config (w : World E) error :
  settle (wire_request config w) (first_reply config w) = inr error ->
  status_is error 401 = true -> _retry config = false ->
  truthy (stored_refresh_token w) = true ->
  refresh_succeeds (refresh_reply config w) = false ->
  api config w =
  refresh_failed (refresh_error (stored_refresh_token w) (refresh_reply config w))
    (after_refresh config w).
Proof.
  intros H H401 Hr Ht Hf. rewrite api_step, dispatch_eq, H.
  unfold response_error_interceptor.
  rewrite (settle_error_config _ _ _ H), wire_request_retry, H401, Hr.
  cbn [andb negb]. unfold bind at 1. unfold getItem at 1.
  fold (stored_refresh_token (after_first config w)).
  rewrite after_first_stored_refresh_token, Ht.
  unfold bind at 1. unfold refresh_error.
  unfold refresh_reply, after_refresh in *.
  destruct (adapter GlobalAxios _ _) as [o w2]. cbn [fst snd] in *.
  destruct (settle _ o) as [response|refreshError] eqn:Hs.
  - assert (Hn : is_nullish (response_data response) = true).
    { destruct o as [status body| |]; simpl in Hs, Hf; try discriminate.
      destruct ((200 <=? status)%Z && (status <? 300)%Z); [|discriminate].
      injection Hs as <-. simpl in *. destruct (is_nullish body); [reflexivity|discriminate]. }
    destruct (response_data response); try discriminate; reflexivity.
  - rewrite done_eq; destruct (refresh_failed _ _); reflexivity.
Qed.

Lemma api_refreshed config (w : World E) error :
  settle (wire_request config w) (first_reply config w) = inr error ->
  status_is error 401 = true -> _retry config = false ->
  truthy (stored_refresh_token w) = true ->
  refresh_succeeds (refresh_reply config w) = true ->
  api config w = api (retried_request config w) (refreshed config w).
Proof.
  intros H H401 Hr Ht Hf. rewrite api_step, dispatch_eq, H.
  unfold response_error_interceptor.
  rewrite (settle_error_config _ _ _ H), wire_request_retry, H401, Hr.
  cbn [andb negb]. unfold bind at 1. unfold getItem at 1.
  fold (stored_refresh_token (after_first config w)).
  rewrite after_first_stored_refresh_token, Ht.
  unfold bind at 1. unfold retried_request, refreshed.
  unfold refresh_reply, after_refresh in *.
  destruct (adapter GlobalAxios _ _) as [o w2]. cbn [fst snd] in *.
  destruct o as [status body| |]; simpl in Hf; try discriminate.
  apply andb_true_iff in Hf as [Hs Hn]. simpl. rewrite Hs.
  unfold new_token, new_refresh_token, optional_prop. cbn [response_data].
  destruct (get_prop body "token") as [tok|] eqn:Htok;
    [|destruct body; simpl in *; discriminate].
  destruct (get_prop body "refreshToken") as [rt|] eqn:Hrt;
    [|destruct body; simpl in *; discriminate].
  reflexivity.
Qed.


Lemma api_retried config (w : World E) :
  _retry config = true ->
  api config w =
  match settle (wire_request config w) (first_reply config w) with
  | inl response => (Resolved response, after_first config w)
  | inr error => report_error error (after_first config w)
  end.
Proof.
  intros Hr. destruct (settle _ _) as [response|error] eqn:H.
  - apply api_first_success, H.
  - apply api_reported; [exact H|]. rewrite Hr. apply andb_false_r.
Qed.

Lemma report_error_body req o error c (w : World E) :
  settle req o = inr error -> has_body o = true ->
  report_error (with_error_config c error) w =
  (Rejected (ThrowAxios (with_error_config c error)), with_event (console_line o) w).
Proof.
  intros Hs Hb. destruct o as [status body| |]; simpl in Hs.
  - destruct (_ && _); [discriminate|]. injection Hs as <-.
    unfold report_error, bind, emit, ret. simpl.
    unfold optional_prop.
    destruct (get_prop body "message") eqn:Hm; [reflexivity|].
    destruct body; simpl in *; discriminate.
  - injection Hs as <-. reflexivity.
  - injection Hs as <-. reflexivity.
Qed.

Lemma report_error_no_body req o error c (w : World E) :
  settle req o = inr error -> has_body o = false ->
  report_error (with_error_config c error) w = (Rejected (ThrowTypeError "message"), w).
Proof.
  intros Hs Hb. destruct o as [status body| |]; simpl in Hs, Hb; try discriminate.
  destruct (_ && _); [discriminate|]. injection Hs as <-.
  unfold report_error, bind, emit, ret. simpl.
  destruct body; simpl in *; try discriminate; reflexivity.
Qed.

Lemma with_error_config_id req o error :
  settle req o = inr error -> with_error_config req error = error.
Proof.
  intros H. apply settle_error_config in H. destruct error; simpl in *.
  subst. reflexivity.
Qed.

Lemma events_during_app {A} (m : M A) (w : World E) evs :
  trace (snd (m w)) = (trace w ++ evs)%list -> events_during m w = evs.
Proof. intros H. unfold events_during. rewrite H. apply drop_app_length. Qed.

Lemma after_first_frame (config : RequestConfig) (w : World E) :
  untouched w (after_first config w) /\
  trace (after_first config w) =
    (trace w ++ [EvSend ApiInstance (wire_request config w)])%list.
Proof.
  unfold untouched, after_first, adapter. destruct (respond _ _ _); simpl. auto.
Qed.

Lemma non_auth_error_settle req o :
  non_auth_error o ->
  exists error, settle req o = inr error /\ status_is error 401 = false.
Proof.
  destruct o as [status body| |]; simpl; intros H.
  - destruct H as [Hs Hne].
    replace ((200 <=? status)%Z && (status <? 300)%Z) with false by lia.
    eexists; split; [reflexivity|]. unfold status_is; simpl. lia.
  - eexists; split; reflexivity.
  - eexists; split; reflexivity.
Qed.


Lemma sends_app (a b : list Event) : sends (a ++ b) = (sends a ++ sends b)%list.
Proof.
  induction a as [|e a IH]; [reflexivity|].
  destruct e; simpl; rewrite IH; reflexivity.
Qed.

Lemma only_console_silent (evs : list Event) :
  only_console evs ->
  sends evs = [] /\ refresh_attempts evs = 0%nat /\ retries evs = 0%nat /\
  forall href, ~ In (EvLocation href) evs.
Proof.
  unfold refresh_attempts, retries.
  induction 1 as [|e evs (label & payload & ->) _ IH]; simpl.
  - auto.
  - destruct IH as (H1 & H2 & H3 & H4). repeat split; auto.
    intros href [Hc|Hc]; [discriminate|]. eapply H4, Hc.
Qed.

Lemma refresh_attempts_app (a b : list Event) :
  refresh_attempts (a ++ b) = (refresh_attempts a + refresh_attempts b)%nat.
Proof. unfold refresh_attempts. rewrite List.filter_app, length_app. reflexivity. Qed.

Lemma retries_app (a b : list Event) :
  retries (a ++ b) = (retries a + retries b)%nat.
Proof. unfold retries. rewrite List.filter_app, length_app. reflexivity. Qed.

(** Reporting an error rejects, writes at most a console line and changes
    nothing else. *)
Lemma report_error_run error (w : World E) :
  exists thrown tail,
    fst (report_error error w) = Rejected thrown /\
    untouched w (snd (report_error error w)) /\
    server (snd (report_error error w)) = server w /\
    trace (snd (report_error error w)) = (trace w ++ tail)%list /\
    only_console tail.
Proof.
  destruct (report_error_cases error w) as [->|(label & payload & ->)].
  - exists (ThrowTypeError "message"), []. simpl. rewrite app_nil_r.
    unfold untouched. repeat split. constructor.
  - exists (ThrowAxios error), [EvConsoleError label payload]. simpl.
    unfold untouched. split; [reflexivity|]. split; [auto|].
    split; [reflexivity|]. split; [reflexivity|].
    constructor; [eauto|constructor].
Qed.

(** A call with a marked config is one request: whatever comes back, it
    settles there. *)
Lemma api_retried_run config (w : World E) :
  _retry config = true ->
  exists tail,
    untouched w (snd (api config w)) /\
    trace (snd (api config w)) =
      (trace w ++ EvSend ApiInstance (wire_request config w) :: tail)%list /\
    only_console tail /\
    (forall error,
       settle (wire_request config w) (first_reply config w) = inr error ->
       exists thrown, fst (api config w) = Rejected thrown).
Proof.
  intros Hr. rewrite (api_retried _ _ Hr).
  destruct (after_first_frame config w) as (Hu & Ht).
  destruct (settle _ _) as [response|error] eqn:Hs.
  - exists []. simpl. split; [exact Hu|]. split; [exact Ht|].
    split; [constructor|discriminate].
  - destruct (report_error_run error (after_first config w))
      as (thrown & tail & H1 & (H2 & H3 & H4) & _ & H5 & H6).
    destruct Hu as (U1 & U2 & U3).
    exists tail. split; [unfold untouched; repeat split; congruence|].
    split; [rewrite H5, Ht, <- app_assoc; reflexivity|].
    split; [exact H6|]. eauto.
Qed.

End Facts.


Section Paths.

Context {E : Environment}.

Lemma after_refresh_frame (config : RequestConfig) (w : World E) :
  untouched w (after_refresh config w) /\
  trace (after_refresh config w) =
    (trace w ++ [EvSend ApiInstance (wire_request config w);
                 EvSend GlobalAxios (refresh_request (stored_refresh_token w))])%list.
Proof.
  destruct (after_first_frame config w) as ((U1 & U2 & U3) & Ht).
  unfold untouched, after_refresh, adapter.
  destruct (respond _ _ _); simpl. rewrite Ht, <- app_assoc. auto.
Qed.

Lemma unauthorized_settle req body :
  exists error,
    settle req (Replied 401 body) = inr error /\ status_is error 401 = true.
Proof. eexists; split; reflexivity. Qed.

(** First 401, config not marked, no refresh token stored. *)
Lemma run_no_refresh_token config (w : World E) body :
  first_reply config w = Replied 401 body ->
  _retry config = false ->
  truthy (stored_refresh_token w) = false ->
  exists tail,
    only_console tail /\
    trace (snd (api config w)) =
      (trace w ++ EvSend ApiInstance (wire_request config w) :: tail)%list /\
    untouched w (snd (api config w)) /\
    exists thrown, fst (api config w) = Rejected thrown.
Proof.
  intros Hf Hr Ht.
  destruct (unauthorized_settle (wire_request config w) body) as (error & Hs & H401).
  rewrite <- Hf in Hs.
  rewrite (api_no_refresh_token _ _ _ Hs H401 Hr Ht).
  destruct (report_error_run
              (with_error_config (with_retry true (wire_request config w)) error)
              (after_first config w))
    as (thrown & tail & H1 & (H2 & H3 & H4) & _ & H5 & H6).
  destruct (after_first_frame config w) as ((U1 & U2 & U3) & Htr).
  exists tail. split; [exact H6|]. split.
  - rewrite H5, Htr, <- app_assoc. reflexivity.
  - split; [unfold untouched; repeat split; congruence | eauto].
Qed.

(** First 401, config not marked, the refresh does not succeed. *)
Lemma run_refresh_failed config (w : World E) body :
  first_reply config w = Replied 401 body ->
  _retry config = false ->
  truthy (stored_refresh_token w) = true ->
  refresh_succeeds (refresh_reply config w) = false ->
  api config w =
    refresh_failed (refresh_error (stored_refresh_token w) (refresh_reply config w))
      (after_refresh config w) /\
  trace (snd (api config w)) =
    (trace w ++
     [EvSend ApiInstance (wire_request config w);
      EvSend GlobalAxios (refresh_request (stored_refresh_token w));
      EvLocation "/login"])%list /\
  localStorage (snd (api config w)) =
    delete "user" (delete "refreshToken" (delete "token" (localStorage w))) /\
  defaults_common (snd (api config w)) = defaults_common w /\
  auth (snd (api config w)) = auth w.
Proof.
  intros Hf Hr Ht Hfail.
  destruct (unauthorized_settle (wire_request config w) body) as (error & Hs & H401).
  rewrite <- Hf in Hs.
  pose proof (api_refresh_failed _ _ _ Hs H401 Hr Ht Hfail) as Hapi.
  destruct (after_refresh_frame config w) as ((U1 & U2 & U3) & Htr).
  split; [exact Hapi|]. rewrite Hapi. simpl.
  rewrite Htr, U1, U2, U3, <- app_assoc. auto.
Qed.

(** First 401, config not marked, the refresh succeeds: the marked request
    goes out once. *)
Lemma run_refreshed config (w : World E) body :
  first_reply config w = Replied 401 body ->
  _retry config = false ->
  truthy (stored_refresh_token w) = true ->
  refresh_succeeds (refresh_reply config w) = true ->
  exists tail,
    only_console tail /\
    trace (snd (api config w)) =
      (trace w ++
       EvSend ApiInstance (wire_request config w)
       :: EvSend GlobalAxios (refresh_request (stored_refresh_token w))
       :: EvSend ApiInstance (wire_request (retried_request config w) (refreshed config w))
       :: tail)%list /\
    localStorage (snd (api config w)) =
      <["refreshToken" := ToString (new_refresh_token (refresh_reply config w))]>
        (<["token" := ToString (new_token (refresh_reply config w))]> (localStorage w)) /\
    defaults_common (snd (api config w)) =
      <["Authorization" := "Bearer " +:+ ToString (new_token (refresh_reply config w))]>
        (defaults_common w) /\
    auth (snd (api config w)) = auth w.
Proof.
  intros Hf Hr Ht Hok.
  destruct (unauthorized_settle (wire_request config w) body) as (error & Hs & H401).
  rewrite <- Hf in Hs.
  pose proof (api_refreshed _ _ _ Hs H401 Hr Ht Hok) as Hapi.
  destruct (after_refresh_frame config w) as ((U1 & U2 & U3) & Htr).
  destruct (api_retried_run (retried_request config w) (refreshed config w) eq_refl)
    as (tail & (V1 & V2 & V3) & Vt & Vc & _).
  exists tail. split; [exact Vc|].
  rewrite Hapi, Vt, V1, V2, V3.
  unfold refreshed at 1 3 4 5. simpl.
  rewrite Htr, U1, U2, U3, <- app_assoc. auto.
Qed.

Lemma settle_unauthorized req o error :
  settle req o = inr error -> status_is error 401 = true ->
  exists body, o = Replied 401 body.
Proof.
  destruct o as [status body| |]; simpl; intros Hs H401.
  - destruct (_ && _); [discriminate|]. injection Hs as <-.
    unfold status_is in H401; simpl in H401.
    apply Z.eqb_eq in H401. subst. eauto.
  - injection Hs as <-. discriminate.
  - injection Hs as <-. discriminate.
Qed.

(** Every call through [api] runs in one of three ways: it settles on its
    own request; or the refresh it attempts fails; or the refresh succeeds
    and the marked request goes out. *)
Lemma api_run_cases config (w : World E) :
  (exists tail,
     only_console tail /\
     trace (snd (api config w)) =
       (trace w ++ EvSend ApiInstance (wire_request config w) :: tail)%list /\
     untouched w (snd (api config w)))
  \/
  (trace (snd (api config w)) =
     (trace w ++
      [EvSend ApiInstance (wire_request config w);
       EvSend GlobalAxios (refresh_request (stored_refresh_token w));
       EvLocation "/login"])%list /\
   localStorage (snd (api config w)) =
     delete "user" (delete "refreshToken" (delete "token" (localStorage w))) /\
   defaults_common (snd (api config w)) = defaults_common w /\
   auth (snd (api config w)) = auth w)
  \/
  (refresh_succeeds (refresh_reply config w) = true /\
   exists tail,
     only_console tail /\
     trace (snd (api config w)) =
       (trace w ++
        EvSend ApiInstance (wire_request config w)
        :: EvSend GlobalAxios (refresh_request (stored_refresh_token w))
        :: EvSend ApiInstance (wire_request (retried_request config w) (refreshed config w))
        :: tail)%list /\
     localStorage (snd (api config w)) =
       <["refreshToken" := ToString (new_refresh_token (refresh_reply config w))]>
         (<["token" := ToString (new_token (refresh_reply config w))]> (localStorage w)) /\
     defaults_common (snd (api config w)) =
       <["Authorization" := "Bearer " +:+ ToString (new_token (refresh_reply config w))]>
         (defaults_common w) /\
     auth (snd (api config w)) = auth w).
Proof.
  destruct (settle (wire_request config w) (first_reply config w))
    as [response|error] eqn:Hs.
  { left. rewrite (api_first_success _ _ _ Hs). simpl.
    destruct (after_first_frame config w) as (Hu & Ht).
    exists []. split; [constructor|]. split; [exact Ht|exact Hu]. }
  destruct (status_is error 401 && negb (_retry config)) eqn:Hc.
  2:{ left. rewrite (api_reported _ _ _ Hs Hc).
      destruct (report_error_run error (after_first config w))
        as (thrown & tail & _ & (H2 & H3 & H4) & _ & H5 & H6).
      destruct (after_first_frame config w) as ((U1 & U2 & U3) & Ht).
      exists tail. split; [exact H6|]. split.
      - rewrite H5, Ht, <- app_assoc. reflexivity.
      - unfold untouched; repeat split; congruence. }
  apply andb_true_iff in Hc as [H401 Hr]. apply negb_true_iff in Hr.
  destruct (settle_unauthorized _ _ _ Hs H401) as (body & Hf).
  destruct (truthy (stored_refresh_token w)) eqn:Hrt.
  - destruct (refresh_succeeds (refresh_reply config w)) eqn:Hok.
    + right; right. split; [reflexivity|].
      exact (run_refreshed config w body Hf Hr Hrt Hok).
    + right; left.
      destruct (run_refresh_failed config w body Hf Hr Hrt Hok) as (_ & H).
      exact H.
  - left. destruct (run_no_refresh_token config w body Hf Hr Hrt)
      as (tail & H1 & H2 & H3 & _).
    exists tail. auto.
Qed.

(** No call writes the React state. *)
Lemma api_auth config (w : World E) : auth (snd (api config w)) = auth w.
Proof.
  destruct (api_run_cases config w)
    as [(tail & _ & _ & (_ & _ & H))|[(_ & _ & _ & H)|(_ & tail & _ & _ & _ & _ & H)]];
    exact H.
Qed.

(** The trace of a call only grows. *)
Lemma api_trace_grows config (w : World E) :
  trace (snd (api config w)) = (trace w ++ events_during (api config) w)%list.
Proof.
  destruct (api_run_cases config w)
    as [(tail & _ & Ht & _)|[(Ht & _)|(_ & tail & _ & Ht & _)]];
    rewrite (events_during_app _ _ _ Ht); exact Ht.
Qed.

End Paths.

(** ** The response interceptor on a 401 *)

Section Unauthorized.

Context {E : Environment}.

Lemma counts_console_tail (tail : list Event) (pre : list Event) :
  only_console tail ->
  sends (pre ++ tail) = sends pre /\
  refresh_attempts (pre ++ tail) = refresh_attempts pre /\
  retries (pre ++ tail) = retries pre /\
  (forall href, In (EvLocation href) (pre ++ tail) -> In (EvLocation href) pre).
Proof.
  intros H. destruct (only_console_silent tail H) as (H1 & H2 & H3 & H4).
  rewrite sends_app, refresh_attempts_app, retries_app, H1, H2, H3, app_nil_r.
  repeat split; try lia.
  intros href Hin. apply in_app_or in Hin as [Hin|Hin]; [exact Hin|].
  exfalso. eapply H4, Hin.
Qed.

(** C1 (amended).  A call whose first answer is a 401 puts on the wire
    exactly the requests of [expected_requests]: for a config without the
    marker, one refresh attempt when a refresh token is stored (none
    otherwise), followed by one retry when that refresh succeeded (none
    otherwise), the call then being the call of the marked request; for a
    config that carries the marker, nothing but the request itself (which
    is the one retry counted).  A 401 for a config that carries the
    marker, and a 401 for a config without it when no refresh token is
    stored, is rejected like any other error response: storage, default
    headers and the React state are left as they were, there is no
    redirect, and when the response has a body the call rejects with the
    error of the response (its config marked, in the second case) after
    the console line "Error 401:". *)
Theorem unauthorized_refresh_and_retry (config : RequestConfig) (w : World E) body :
  first_reply config w = Replied 401 body ->
  sends (events_during (api config) w) = expected_requests config w /\
  refresh_attempts (events_during (api config) w) =
    (if negb (_retry config) && truthy (stored_refresh_token w) then 1%nat else 0%nat) /\
  retries (events_during (api config) w) =
    (if _retry config then 1%nat
     else if truthy (stored_refresh_token w) && refresh_succeeds (refresh_reply config w)
          then 1%nat else 0%nat) /\
  (_retry config = false ->
   truthy (stored_refresh_token w) = true ->
   refresh_succeeds (refresh_reply config w) = true ->
   api config w = api (retried_request config w) (refreshed config w)) /\
  (_retry config = true ->
     untouched w (snd (api config w)) /\
     (forall href, ~ In (EvLocation href) (events_during (api config) w)) /\
     (exists thrown, fst (api config w) = Rejected thrown) /\
     (is_nullish body = false ->
      exists error,
        settle (wire_request config w) (Replied 401 body) = inr error /\
        fst (api config w) = Rejected (ThrowAxios error) /\
        events_during (api config) w =
          [EvSend ApiInstance (wire_request config w);
           EvConsoleError "Error 401:"
             (js_or (optional_prop body "message") (JStr "An error occurred"))])) /\
  (_retry config = false ->
   truthy (stored_refresh_token w) = false ->
     untouched w (snd (api config w)) /\
     (forall href, ~ In (EvLocation href) (events_during (api config) w)) /\
     (exists thrown, fst (api config w) = Rejected thrown) /\
     (is_nullish body = false ->
      exists error,
        settle (wire_request config w) (Replied 401 body) = inr error /\
        fst (api config w) =
          Rejected (ThrowAxios
                      (with_error_config (with_retry true (wire_request config w)) error)) /\
        events_during (api config) w =
          [EvSend ApiInstance (wire_request config w);
           EvConsoleError "Error 401:"
             (js_or (optional_prop body "message") (JStr "An error occurred"))])).
Proof.
  intros Hf. unfold expected_requests.
  destruct (_retry config) eqn:Hr.
  - (* the request is itself the retry *)
    destruct (api_retried_run config w Hr) as (tail & Hu & Ht & Hc & Hrej).
    pose proof (events_during_app (api config) w _ Ht) as Hev. rewrite Hev.
    destruct (counts_console_tail tail [EvSend ApiInstance (wire_request config w)] Hc)
      as (C1 & C2 & C3 & C4).
    simpl app in *. rewrite C1, C2, C3. unfold refresh_attempts, retries. simpl.
    rewrite wire_request_retry, Hr. simpl.
    split; [reflexivity|]. split; [reflexivity|]. split; [reflexivity|].
    split; [discriminate|]. split; [|discriminate].
    intros _. split; [exact Hu|]. split.
    { intros href Hin. apply C4 in Hin. destruct Hin as [Hin|[]]. discriminate. }
    destruct (unauthorized_settle (wire_request config w) body) as (error & Hs & H401).
    split.
    { apply (Hrej error). rewrite Hf. exact Hs. }
    intros Hb. exists error. split; [exact Hs|].
    assert (Hb' : has_body (Replied 401 body) = true) by (simpl; rewrite Hb; reflexivity).
    rewrite <- Hev. unfold events_during.
    rewrite (api_retried _ _ Hr), Hf, Hs.
    rewrite <- (with_error_config_id _ _ _ Hs).
    rewrite (report_error_body _ _ _ _ _ Hs Hb').
    rewrite (with_error_config_id _ _ _ Hs).
    split; [reflexivity|]. simpl.
    destruct (after_first_frame config w) as (_ & Htr).
    rewrite Htr, <- app_assoc. apply drop_app_length.
  - destruct (truthy (stored_refresh_token w)) eqn:Hrt.
    + destruct (refresh_succeeds (refresh_reply config w)) eqn:Hok.
      * destruct (unauthorized_settle (wire_request config w) body)
          as (error & Hs & H401).
        rewrite <- Hf in Hs.
        pose proof (api_refreshed _ _ _ Hs H401 Hr Hrt Hok) as Hapi.
        destruct (run_refreshed config w body Hf Hr Hrt Hok) as (tail & Hc & Hev & _).
        apply events_during_app in Hev. rewrite Hev.
        destruct (counts_console_tail tail
                    [EvSend ApiInstance (wire_request config w);
                     EvSend GlobalAxios (refresh_request (stored_refresh_token w));
                     EvSend ApiInstance
                       (wire_request (retried_request config w) (refreshed config w))] Hc)
          as (C1 & C2 & C3 & _).
        simpl app in *. rewrite C1, C2, C3. unfold refresh_attempts, retries. simpl.
        rewrite !wire_request_retry, Hr. simpl.
        split; [reflexivity|]. split; [reflexivity|]. split; [reflexivity|].
        split; [intros _ _ _; exact Hapi|]. split; discriminate.
      * destruct (run_refresh_failed config w body Hf Hr Hrt Hok) as (_ & Hev & _).
        apply events_during_app in Hev. rewrite Hev. unfold refresh_attempts, retries. simpl.
        rewrite wire_request_retry, Hr. simpl.
        split; [reflexivity|]. split; [reflexivity|]. split; [reflexivity|].
        split; [discriminate|]. split; discriminate.
    + (* no refresh token: the config is marked and the 401 is reported *)
      destruct (run_no_refresh_token config w body Hf Hr Hrt)
        as (tail & Hc & Htr & Hu & Hrej).
      pose proof (events_during_app (api config) w _ Htr) as Hev. rewrite Hev.
      destruct (counts_console_tail tail [EvSend ApiInstance (wire_request config w)] Hc)
        as (C1 & C2 & C3 & C4).
      simpl app in *. rewrite C1, C2, C3. unfold refresh_attempts, retries. simpl.
      rewrite wire_request_retry, Hr. simpl.
      split; [reflexivity|]. split; [reflexivity|]. split; [reflexivity|].
      split; [discriminate|]. split; [discriminate|].
      intros _ _. split; [exact Hu|]. split.
      { intros href Hin. apply C4 in Hin. destruct Hin as [Hin|[]]. discriminate. }
      split; [exact Hrej|].
      intros Hb.
      destruct (unauthorized_settle (wire_request config w) body) as (error & Hs & H401).
      exists error. split; [exact Hs|].
      assert (Hb' : has_body (Replied 401 body) = true) by (simpl; rewrite Hb; reflexivity).
      rewrite <- Hev. unfold events_during.
      assert (Hs' : settle (wire_request config w) (first_reply config w) = inr error)
        by (rewrite Hf; exact Hs).
      rewrite (api_no_refresh_token _ _ _ Hs' H401 Hr Hrt).
      rewrite (report_error_body _ _ _ _ _ Hs Hb').
      split; [reflexivity|]. simpl.
      destruct (after_first_frame config w) as (_ & Hfr).
      rewrite Hfr, <- app_assoc. apply drop_app_length.
Qed.

End Unauthorized.

Lemma unauthorized_refresh_and_retry_witness :
  sends (events_during (api get_requests)
           (page_load [expired; renewed; listing]
              {["token" := "t1"; "refreshToken" := "r1"]})) =
  expected_requests get_requests
    (page_load [expired; renewed; listing] {["token" := "t1"; "refreshToken" := "r1"]}).
Proof.
  exact (proj1 (unauthorized_refresh_and_retry get_requests
                  (page_load [expired; renewed; listing]
                     {["token" := "t1"; "refreshToken" := "r1"]})
                  (JObj [("message", JStr "Token expired")]) eq_refl)).
Defined.

(** C1 as stated fails: with no refresh token in storage a first 401 is
    followed by no refresh attempt and no retry. *)
Lemma unauthorized_without_refresh_token :
  first_reply get_requests (page_load [expired] {["token" := "t1"]}) = expired /\
  _retry get_requests = false /\
  refresh_attempts
    (events_during (api get_requests) (page_load [expired] {["token" := "t1"]})) = 0%nat /\
  retries
    (events_during (api get_requests) (page_load [expired] {["token" := "t1"]})) = 0%nat.
Proof. vm_compute. repeat split. Qed.

(** ** The refresh protocol fails *)

Section RefreshFailure.

Context {E : Environment}.

(** C2.  When a call with an unmarked config is answered 401, a refresh
    token is stored and the refresh does not succeed, the interceptor
    removes [token], [refreshToken] and [user] from storage, sends the
    browser to [/login], and the call rejects with the error of the
    refresh. *)
Theorem refresh_failure_clears_session (config : RequestConfig) (w : World E) body :
  first_reply config w = Replied 401 body ->
  _retry config = false ->
  truthy (stored_refresh_token w) = true ->
  refresh_succeeds (refresh_reply config w) = false ->
  fst (api config w) =
    Rejected (refresh_error (stored_refresh_token w) (refresh_reply config w)) /\
  localStorage (snd (api config w)) !! "token" = None /\
  localStorage (snd (api config w)) !! "refreshToken" = None /\
  localStorage (snd (api config w)) !! "user" = None /\
  localStorage (snd (api config w)) =
    delete "user" (delete "refreshToken" (delete "token" (localStorage w))) /\
  events_during (api config) w =
    [EvSend ApiInstance (wire_request config w);
     EvSend GlobalAxios (refresh_request (stored_refresh_token w));
     EvLocation "/login"].
Proof.
  intros Hf Hr Hrt Hfail.
  destruct (run_refresh_failed config w body Hf Hr Hrt Hfail) as (Hapi & Ht & Hs & _).
  split; [rewrite Hapi; reflexivity|].
  rewrite Hs. repeat split.
  - rewrite !lookup_delete_ne by discriminate. apply lookup_delete_eq.
  - rewrite lookup_delete_ne by discriminate. apply lookup_delete_eq.
  - apply lookup_delete_eq.
  - apply events_during_app, Ht.
Qed.

End RefreshFailure.

Lemma refresh_failure_clears_session_witness :
  localStorage (snd (api get_requests (page_load [expired; expired] stored_session)))
    !! "refreshToken" = None.
Proof.
  exact (proj1 (proj2 (proj2
    (refresh_failure_clears_session get_requests
       (page_load [expired; expired] stored_session)
       (JObj [("message", JStr "Token expired")])
       eq_refl eq_refl eq_refl eq_refl)))).
Defined.

(** ** Errors other than a 401 *)

Section NonAuthErrors.

Context {E : Environment}.

(** The [switch] of the interceptor, case by case. *)
Lemma status_label_table (status : Z) :
  status_label status =
    match status with
    | 400 => "Bad Request:"
    | 403 => "Forbidden:"
    | 404 => "Not Found:"
    | 429 => "Too Many Requests:"
    | 500 => "Server Error:"
    | _ => "Error " +:+ pretty status +:+ ":"
    end /\
  status_fallback status =
    match status with
    | 400 => "Invalid request"
    | 403 => "Access denied"
    | 404 => "Resource not found"
    | 429 => "Rate limit exceeded"
    | 500 => "Internal server error"
    | _ => "An error occurred"
    end.
Proof.
  unfold status_label, status_fallback.
  destruct (Z.eqb_spec status 400) as [->|H1]; [split; reflexivity|].
  destruct (Z.eqb_spec status 403) as [->|H2]; [split; reflexivity|].
  destruct (Z.eqb_spec status 404) as [->|H3]; [split; reflexivity|].
  destruct (Z.eqb_spec status 429) as [->|H4]; [split; reflexivity|].
  destruct (Z.eqb_spec status 500) as [->|H5]; [split; reflexivity|].
  destruct status as [|p|p]; [split; reflexivity| |split; reflexivity].
  do 9 (try (destruct p as [p|p|]; try (split; reflexivity); try contradiction)).
Qed.

(** X29.  A call answered by an error other than a 401 (any status
    outside 2xx, or no response at all), with a body that is not [null]
    when there is one, sends nothing more: no refresh, no retry.  It
    rejects with the error axios built, unchanged, after one console line
    that classifies it: "Bad Request:", "Forbidden:", "Not Found:", "Too
    Many Requests:" or "Server Error:" for 400, 403, 404, 429 and 500,
    "Error <status>:" for any other status, each with the message of the
    body or the fallback of that status; "Network Error:" when nothing
    came back and "Request Error:" when the request never left.  Storage,
    default headers and the React state are left as they were. *)
Theorem non_auth_error_rejected_without_retry (config : RequestConfig) (w : World E) :
  non_auth_error (first_reply config w) ->
  has_body (first_reply config w) = true ->
  exists error,
    settle (wire_request config w) (first_reply config w) = inr error /\
    fst (api config w) = Rejected (ThrowAxios error) /\
    events_during (api config) w =
      [EvSend ApiInstance (wire_request config w);
       match first_reply config w with
       | Replied status body =>
           EvConsoleError
             match status with
             | 400 => "Bad Request:"
             | 403 => "Forbidden:"
             | 404 => "Not Found:"
             | 429 => "Too Many Requests:"
             | 500 => "Server Error:"
             | _ => "Error " +:+ pretty status +:+ ":"
             end
             (js_or (optional_prop body "message")
                (JStr match status with
                      | 400 => "Invalid request"
                      | 403 => "Access denied"
                      | 404 => "Resource not found"
                      | 429 => "Rate limit exceeded"
                      | 500 => "Internal server error"
                      | _ => "An error occurred"
                      end))
       | NoReply _ =>
           EvConsoleError "Network Error:"
             (JStr "No response from server. Please check your connection.")
       | NotSent msg => EvConsoleError "Request Error:" (JStr msg)
       end] /\
    untouched w (snd (api config w)).
Proof.
  intros Hne Hb.
  destruct (non_auth_error_settle (wire_request config w) _ Hne) as (error & Hs & H401).
  exists error. split; [exact Hs|].
  assert (Hapi : api config w =
                 (Rejected (ThrowAxios error),
                  with_event (console_line (first_reply config w)) (after_first config w))).
  { rewrite (api_reported _ _ _ Hs) by (rewrite H401; reflexivity).
    rewrite <- (with_error_config_id _ _ _ Hs) at 1.
    rewrite (report_error_body _ _ _ _ _ Hs Hb).
    rewrite (with_error_config_id _ _ _ Hs). reflexivity. }
  destruct (after_first_frame config w) as (Hu & Ht).
  rewrite Hapi. split; [reflexivity|]. split; [|exact Hu].
  apply events_during_app. rewrite Hapi. cbn [snd trace with_event].
  rewrite Ht, <- app_assoc. cbn [app]. do 3 f_equal.
  destruct (first_reply config w) as [status body| |]; try reflexivity.
  simpl. destruct (status_label_table status) as [-> ->]. reflexivity.
Qed.

End NonAuthErrors.

Lemma non_auth_error_rejected_without_retry_witness :
  events_during (api get_requests) (page_load [not_found] stored_session) =
    [EvSend ApiInstance (wire_request get_requests (page_load [not_found] stored_session));
     EvConsoleError "Not Found:" (JStr "No such request")].
Proof.
  destruct (non_auth_error_rejected_without_retry get_requests
              (page_load [not_found] stored_session))
    as (error & _ & _ & Hev & _).
  - simpl. lia.
  - reflexivity.
  - exact Hev.
Defined.

(** C5.  The interceptor reads [data.message] without a guard.  On an
    error response whose body is [null] that read throws: the call rejects
    with a [TypeError] that carries neither the status nor a message of
    the response, and nothing is logged; the one event of the call is its
    request. *)
Lemma null_body_error_loses_status :
  non_auth_error (first_reply get_requests (page_load [bad_request_null] stored_session)) /\
  fst (api get_requests (page_load [bad_request_null] stored_session)) =
    Rejected (ThrowTypeError "message") /\
  length (events_during (api get_requests) (page_load [bad_request_null] stored_session))
    = 1%nat.
Proof.
  split; [simpl; lia|]. vm_compute. split; reflexivity.
Qed.

(** ** Who writes the session and the default header *)

Section SessionWriters.

Context {E : Environment}.

Lemma paginatedRequest_world endpoint params (w : World E) :
  snd (paginatedRequest endpoint params w) =
  snd (api_get endpoint (js_default params (JObj [])) w).
Proof.
  unfold paginatedRequest, bind, ret.
  destruct (api_get _ _ w) as [[response|e] w']; [|reflexivity].
  destruct (get_prop (response_data response) "data"),
    (get_prop (response_data response) "pagination"); reflexivity.
Qed.

(** C8 (amended).  No call through the HTTP client writes the React state
    of the provider.  The default [Authorization] header is another
    matter: the response interceptor sets it to the renewed token after a
    successful refresh; a call without a successful refresh leaves the
    default headers as they were.  The pagination helpers change the world
    only through the call they make. *)
Theorem http_client_writes (config : RequestConfig) (w : World E) :
  auth (snd (api config w)) = auth w /\
  (defaults_common (snd (api config w)) = defaults_common w \/
   (refresh_succeeds (refresh_reply config w) = true /\
    defaults_common (snd (api config w)) =
      <["Authorization" := "Bearer " +:+ ToString (new_token (refresh_reply config w))]>
        (defaults_common w))) /\
  (forall endpoint params,
     snd (paginatedRequest endpoint params w) =
     snd (api_get endpoint (js_default params (JObj [])) w)) /\
  (forall endpoint page limit params,
     snd (infiniteScrollRequest endpoint page limit params w) =
     snd (api_get endpoint
            (JObj (obj_spread [("page", page); ("limit", js_default limit (JNum 20))]
                     (match params with Some o => o | None => [] end))) w)).
Proof.
  split; [|split; [|split]].
  - apply api_auth.
  - destruct (api_run_cases config w)
      as [(tail & _ & _ & (_ & H & _))|[(_ & _ & H & _)|(Hok & tail & _ & _ & _ & H & _)]];
      auto.
  - intros. apply paginatedRequest_world.
  - intros. unfold infiniteScrollRequest. rewrite paginatedRequest_world. reflexivity.
Qed.

End SessionWriters.

(** C8 as stated fails: a call through the HTTP client, answered 401 and
    then refreshed, leaves the default [Authorization] header changed. *)
Lemma interceptor_writes_default_header :
  defaults_common (page_load [expired; renewed; listing] stored_session)
    !! "Authorization" = None /\
  defaults_common
    (snd (api get_requests (page_load [expired; renewed; listing] stored_session)))
    !! "Authorization" = Some "Bearer t2".
Proof. vm_compute. split; reflexivity. Qed.

(** ** [logout] *)

Section Logout.

Context {E : Environment}.

Lemma logout_eq (w : World E) :
  logout w = (Resolved tt, snd (logout_finally (snd (api_post "/auth/logout" JUndefined w)))).
Proof.
  unfold logout, bind, ret.
  destruct (api_post "/auth/logout" JUndefined w) as [[response|e] w1]; simpl;
    destruct (logout_finally w1); reflexivity.
Qed.

Lemma logout_finally_world (w : World E) :
  localStorage (snd (logout_finally w)) = delete "user" (delete "token" (localStorage w)) /\
  defaults_common (snd (logout_finally w)) = delete "Authorization" (defaults_common w) /\
  auth (snd (logout_finally w)) =
    {| user := JNull; loading := loading (auth w); token := JNull |} /\
  trace (snd (logout_finally w)) =
    (trace w ++ [EvNavigate "/login";
                 EvToast ToastSuccess (JStr "Logged out successfully")])%list.
Proof.
  unfold logout_finally, bind; simpl. rewrite <- app_assoc. auto.
Qed.

(** C3.  Whatever the network does with the logout request, [logout]
    resolves, and afterwards [token] and [user] are gone from storage, the
    default [Authorization] header is deleted, the token and the user of
    the React state are [null], and the router has been sent to [/login]. *)
Theorem logout_never_fails (w : World E) :
  fst (logout w) = Resolved tt /\
  localStorage (snd (logout w)) !! "token" = None /\
  localStorage (snd (logout w)) !! "user" = None /\
  defaults_common (snd (logout w)) !! "Authorization" = None /\
  token (auth (snd (logout w))) = JNull /\
  user (auth (snd (logout w))) = JNull /\
  events_during logout w =
    (events_during (api_post "/auth/logout" JUndefined) w ++
     [EvNavigate "/login"; EvToast ToastSuccess (JStr "Logged out successfully")])%list.
Proof.
  rewrite logout_eq. cbn [fst snd].
  destruct (logout_finally_world (snd (api_post "/auth/logout" JUndefined w)))
    as (Hs & Hd & Ha & Ht).
  rewrite Hs, Hd, Ha. cbn [token user].
  split; [reflexivity|].
  split; [rewrite lookup_delete_ne by discriminate; apply lookup_delete_eq|].
  split; [apply lookup_delete_eq|].
  split; [apply lookup_delete_eq|].
  split; [reflexivity|]. split; [reflexivity|].
  apply events_during_app. rewrite logout_eq. cbn [snd]. rewrite Ht.
  unfold api_post. rewrite api_trace_grows, <- app_assoc. reflexivity.
Qed.

End Logout.

(** ** What the clean-ups leave in storage *)

Section StorageFrame.

Context {E : Environment}.

Lemma settle_status_is req status body error :
  settle req (Replied status body) = inr error ->
  status_is error 401 = (status =? 401)%Z.
Proof.
  simpl. destruct (_ && _); [discriminate|]. intros [= <-]. reflexivity.
Qed.

Lemma api_refresh_token config (w : World E) :
  localStorage (snd (api config w)) !! "refreshToken" = refresh_token_after config w.
Proof.
  unfold refresh_token_after, refresh_attempted.
  destruct (after_first_frame config w) as ((U1 & _) & _).
  destruct (settle (wire_request config w) (first_reply config w))
    as [response|error] eqn:Hs.
  { rewrite (api_first_success _ _ _ Hs). cbn [snd]. rewrite U1.
    destruct (first_reply config w) as [status body| |]; simpl in Hs; try discriminate.
    destruct ((200 <=? status)%Z && (status <? 300)%Z) eqn:H2; [|discriminate].
    replace (status =? 401)%Z with false by lia. reflexivity. }
  destruct (status_is error 401 && negb (_retry config)) eqn:Hc.
  2:{ rewrite (api_reported _ _ _ Hs Hc).
      destruct (report_error_run error (after_first config w))
        as (thrown & tail & _ & (H2 & _) & _).
      rewrite H2, U1.
      destruct (first_reply config w) as [status body| |]; try reflexivity.
      rewrite <- (settle_status_is _ _ _ _ Hs), Hc. reflexivity. }
  apply andb_true_iff in Hc as [H401 Hr]. apply negb_true_iff in Hr.
  destruct (settle_unauthorized _ _ _ Hs H401) as (body & Hf).
  rewrite Hf, Hr. cbn [Z.eqb Pos.eqb negb andb].
  destruct (truthy (stored_refresh_token w)) eqn:Hrt.
  - destruct (refresh_succeeds (refresh_reply config w)) eqn:Hok.
    + destruct (run_refreshed config w body Hf Hr Hrt Hok) as (tail & _ & _ & H & _).
      rewrite H. apply lookup_insert_eq.
    + destruct (run_refresh_failed config w body Hf Hr Hrt Hok) as (_ & _ & H & _).
      rewrite H. rewrite lookup_delete_ne by discriminate. apply lookup_delete_eq.
  - destruct (run_no_refresh_token config w body Hf Hr Hrt) as (tail & _ & _ & (H & _) & _).
    rewrite H. reflexivity.
Qed.

Lemma refresh_attempted_inv config (w : World E) :
  refresh_attempted config w = true ->
  (exists body, first_reply config w = Replied 401 body) /\
  _retry config = false /\
  truthy (stored_refresh_token w) = true.
Proof.
  unfold refresh_attempted.
  destruct (first_reply config w) as [status body| |]; try discriminate.
  intros H. apply andb_true_iff in H as [H Hrt]. apply andb_true_iff in H as [H401 Hr].
  apply Z.eqb_eq in H401. subst. apply negb_true_iff in Hr. eauto.
Qed.

(** C9 (amended).  The [finally] block of [logout] and the [catch] block
    of [initializeAuth] remove [token] and [user] from storage and nothing
    else.  What storage holds under [refreshToken] after [logout] and
    after start-up is therefore what their request left there: the stored
    refresh token, or the renewed one when the request was answered 401
    and the refresh succeeded, and nothing when that refresh failed.  The
    refresh-failure path of the response interceptor is the one place
    that removes [refreshToken]: it removes all three keys. *)
Theorem cleanups_leave_refresh_token (w : World E) :
  localStorage (snd (logout w)) =
    delete "user" (delete "token"
      (localStorage (snd (api_post "/auth/logout" JUndefined w)))) /\
  localStorage (snd (initializeAuth_catch w)) =
    delete "user" (delete "token" (localStorage w)) /\
  localStorage (snd (logout w)) !! "refreshToken" =
    refresh_token_after
      {| method := POST; baseURL := None; url := "/auth/logout"; data := JUndefined;
         params := JUndefined; headers := ∅; _retry := false |} w /\
  localStorage (snd (startup w)) !! "refreshToken" =
    (if truthy (of_item (localStorage w !! "token")) &&
        truthy (of_item (localStorage w !! "user"))
     then refresh_token_after
            {| method := GET; baseURL := None; url := "/auth/verify"; data := JUndefined;
               params := JUndefined; headers := ∅; _retry := false |} (verifying w)
     else localStorage w !! "refreshToken") /\
  (forall config,
     localStorage (snd (api config w)) !! "refreshToken" = refresh_token_after config w) /\
  (forall config,
     refresh_attempted config w = true ->
     refresh_succeeds (refresh_reply config w) = false ->
     localStorage (snd (api config w)) =
       delete "user" (delete "refreshToken" (delete "token" (localStorage w)))).
Proof.
  split; [|split; [|split; [|split; [|split]]]].
  - rewrite logout_eq. cbn [snd]. apply logout_finally_world.
  - reflexivity.
  - rewrite logout_eq. cbn [snd].
    destruct (logout_finally_world (snd (api_post "/auth/logout" JUndefined w)))
      as (Hs & _).
    rewrite Hs, !lookup_delete_ne by discriminate.
    unfold api_post. apply api_refresh_token.
  - pose proof (api_refresh_token
      {| method := GET; baseURL := None; url := "/auth/verify"; data := JUndefined;
         params := JUndefined; headers := ∅; _retry := false |} (verifying w)) as Ha.
    rewrite <- Ha. clear Ha.
    fold (api_get "/auth/verify" JUndefined (verifying w)).
    unfold startup, initializeAuth, AuthProvider_mount, verifying,
      bind, getItem, set_default_header, ret.
    cbn [fst snd localStorage with_auth with_defaults].
    destruct (truthy (of_item (localStorage w !! "token")) &&
              truthy (of_item (localStorage w !! "user"))).
    + destruct (api_get "/auth/verify" JUndefined _) as [[response|e] w2].
      * destruct (JSON_parse _); simpl.
        -- reflexivity.
        -- rewrite !lookup_delete_ne by discriminate. reflexivity.
      * simpl. rewrite !lookup_delete_ne by discriminate. reflexivity.
    + reflexivity.
  - intros config. apply api_refresh_token.
  - intros config Ha Hfail.
    destruct (refresh_attempted_inv config w Ha) as ((body & Hf) & Hr & Hrt).
    destruct (run_refresh_failed config w body Hf Hr Hrt Hfail) as (_ & _ & H & _).
    exact H.
Qed.

End StorageFrame.

Lemma cleanups_leave_refresh_token_witness :
  localStorage (snd (api get_requests (page_load [expired; expired] stored_session))) =
  delete "user" (delete "refreshToken" (delete "token" stored_session)).
Proof.
  exact (proj2 (proj2 (proj2 (proj2 (proj2
    (cleanups_leave_refresh_token (page_load [expired; expired] stored_session))))))
    get_requests eq_refl eq_refl).
Defined.

(** C9 as stated fails: when the logout request is answered 401 and the
    refresh that follows fails, [logout] resolves and the refresh token
    that was in storage is gone. *)
Lemma logout_after_failed_refresh_loses_refresh_token :
  localStorage (page_load [expired; expired] stored_session) !! "refreshToken" = Some "r1" /\
  fst (logout (page_load [expired; expired] stored_session)) = Resolved tt /\
  localStorage (snd (logout (page_load [expired; expired] stored_session)))
    !! "refreshToken" = None.
Proof. vm_compute. repeat split. Qed.

(** ** Start-up *)

Section Startup.

Context {E : Environment}.

(** When the verification request of start-up is rejected, the clean-up
    removes [token] and [user] from storage and the default header, and
    [initializeAuth] resolves; the token of the React state is still the
    one the provider read from storage when it mounted. *)
Lemma startup_verification_failure (w : World E) e :
  truthy (of_item (localStorage w !! "token")) = true ->
  truthy (of_item (localStorage w !! "user")) = true ->
  fst (api_get "/auth/verify" JUndefined (verifying w)) = Rejected e ->
  fst (startup w) = Resolved tt /\
  token (auth (snd (startup w))) = of_item (localStorage w !! "token") /\
  user (auth (snd (startup w))) = JNull /\
  localStorage (snd (startup w)) !! "token" = None /\
  localStorage (snd (startup w)) !! "user" = None /\
  defaults_common (snd (startup w)) !! "Authorization" = None.
Proof.
  intros Ht Hu Hv.
  pose proof (api_auth
    {| method := GET; baseURL := None; url := "/auth/verify"; data := JUndefined;
       params := JUndefined; headers := ∅; _retry := false |} (verifying w)) as Ha.
  fold (api_get "/auth/verify" JUndefined (verifying w)) in Ha.
  assert (Hs : startup w =
               (Resolved tt,
                with_auth (fun a => {| user := user a; loading := false; token := token a |})
                  (snd (initializeAuth_catch
                          (snd (api_get "/auth/verify" JUndefined (verifying w))))))).
  { unfold startup, initializeAuth, AuthProvider_mount, bind, getItem,
      set_default_header, setLoading, ret.
    cbn [fst snd localStorage with_auth with_defaults].
    rewrite Ht, Hu. cbn [andb].
    change (api_get "/auth/verify" JUndefined _)
      with (api_get "/auth/verify" JUndefined (verifying w)).
    destruct (api_get "/auth/verify" JUndefined (verifying w)) as [r w2].
    cbn [fst snd] in *. subst r.
    destruct (initializeAuth_catch w2); reflexivity. }
  rewrite Hs. cbn [fst snd]. simpl. rewrite Ha. simpl.
  repeat split.
  - rewrite lookup_delete_ne by discriminate. apply lookup_delete_eq.
  - apply lookup_delete_eq.
  - apply lookup_delete_eq.
Qed.

End Startup.

(** C4, at a failing input: [token] and [user] are stored, there is no
    refresh token, and the server answers the verification request with a
    500.  Start-up resolves and cleans storage and the default header, but
    the token of the React state is still the stored one. *)
Lemma startup_keeps_unverified_token :
  fst (startup (page_load [server_error] session_without_refresh)) = Resolved tt /\
  token (auth (snd (startup (page_load [server_error] session_without_refresh)))) =
    JStr "t1" /\
  user (auth (snd (startup (page_load [server_error] session_without_refresh)))) =
    JNull /\
  localStorage (snd (startup (page_load [server_error] session_without_refresh)))
    !! "token" = None /\
  localStorage (snd (startup (page_load [server_error] session_without_refresh)))
    !! "user" = None /\
  defaults_common (snd (startup (page_load [server_error] session_without_refresh)))
    !! "Authorization" = None.
Proof. vm_compute. repeat split. Qed.

(** ** Role checks *)

Lemma strict_eq_undefined (v : JSValue) :
  strict_eq JUndefined v = true <-> v = JUndefined.
Proof. destruct v; simpl; split; congruence. Qed.

Lemma strict_eq_string (r : string) (v : JSValue) :
  strict_eq (JStr r) v = true <-> v = JStr r.
Proof.
  destruct v; simpl; split; try congruence.
  - intros H. apply String.eqb_eq in H. congruence.
  - intros [= ->]. apply String.eqb_refl.
Qed.

Lemma strict_eq_sym (a b : JSValue) : strict_eq a b = strict_eq b a.
Proof.
  destruct a, b; simpl; try reflexivity.
  - destruct b, b0; reflexivity.
  - apply Z.eqb_sym.
  - apply String.eqb_sym.
Qed.

Lemma includes_undefined (roles : list JSValue) :
  includes roles JUndefined = true <-> In JUndefined roles.
Proof.
  unfold includes. rewrite existsb_exists. split.
  - intros (x & Hin & Hx). rewrite strict_eq_sym in Hx.
    apply strict_eq_undefined in Hx. subst. exact Hin.
  - intros Hin. exists JUndefined. split; [exact Hin|reflexivity].
Qed.

Lemma includes_string (roles : list JSValue) (r : string) :
  includes roles (JStr r) = true <-> In (JStr r) roles.
Proof.
  unfold includes. rewrite existsb_exists. split.
  - intros (x & Hin & Hx). rewrite strict_eq_sym in Hx.
    apply strict_eq_string in Hx. subst. exact Hin.
  - intros Hin. exists (JStr r). split; [exact Hin|].
    apply strict_eq_string. reflexivity.
Qed.

(** C6 (amended).  [hasRole] and [hasAnyRole] are functions of the React
    state and their argument alone.  With no session ([user] is [null]),
    [hasRole(role)] is false for every [role] but [undefined], and
    [hasAnyRole(roles)] is false for every array that does not contain
    [undefined].  With a session whose user has the role [r], a string,
    [hasRole(role)] is true exactly when [role] is [r], and
    [hasAnyRole(roles)] exactly when [r] is an element of [roles]. *)
Theorem role_predicates (a : AuthState) (role : JSValue) (roles : list JSValue) :
  (user a = JNull ->
   (hasRole a role = true <-> role = JUndefined) /\
   (hasAnyRole a roles = true <-> In JUndefined roles)) /\
  (forall props r,
     user a = JObj props -> obj_get "role" props = JStr r ->
     (hasRole a role = true <-> role = JStr r) /\
     (hasAnyRole a roles = true <-> In (JStr r) roles)).
Proof.
  unfold hasRole, hasAnyRole, optional_prop. split.
  - intros ->. simpl. split; [apply strict_eq_undefined|apply includes_undefined].
  - intros props r -> Hr. simpl. rewrite Hr.
    split; [apply strict_eq_string|apply includes_string].
Qed.

Lemma role_predicates_witness :
  (hasRole an_admin (JStr "ADMIN") = true <-> JStr "ADMIN" = JStr "ADMIN") /\
  (hasAnyRole an_admin [JStr "MODERATOR"; JStr "ADMIN"] = true <->
   In (JStr "ADMIN") [JStr "MODERATOR"; JStr "ADMIN"]).
Proof.
  exact (proj2 (role_predicates an_admin (JStr "ADMIN") [JStr "MODERATOR"; JStr "ADMIN"])
           [("id", JNum 7); ("role", JStr "ADMIN")] "ADMIN" eq_refl eq_refl).
Defined.

(** C6 as stated fails: with no session, both predicates are true on
    [undefined]. *)
Lemma no_session_has_undefined_role :
  user nobody = JNull /\
  hasRole nobody JUndefined = true /\
  hasAnyRole nobody [JUndefined] = true.
Proof. repeat split. Qed.

(** ** The pagination helpers *)

Section Pagination.

Context {E : Environment}.

(** C7.  When the request of [paginatedRequest] resolves with a body that
    is an object, the helper resolves with an object of exactly two
    properties, [data] and [pagination], holding the [data] and the
    [pagination] of the body, untouched. *)
Theorem paginatedRequest_unwraps endpoint params (w : World E) response fields :
  fst (api_get endpoint (js_default params (JObj [])) w) = Resolved response ->
  response_data response = JObj fields ->
  paginatedRequest endpoint params w =
    (Resolved (JObj [("data", obj_get "data" fields);
                     ("pagination", obj_get "pagination" fields)]),
     snd (api_get endpoint (js_default params (JObj [])) w)).
Proof.
  intros Hr Hb. unfold paginatedRequest, bind, ret.
  destruct (api_get _ _ w) as [r w']. simpl in Hr. subst r.
  rewrite Hb. reflexivity.
Qed.

(** C10.  [infiniteScrollRequest(endpoint, page, limit, params)] is
    [paginatedRequest(endpoint, { page, limit, ...params })], where an
    undefined [limit] is 20 and an undefined [params] is the empty
    object. *)
Theorem infiniteScrollRequest_delegates endpoint page limit params (w : World E) :
  infiniteScrollRequest endpoint page limit params w =
    paginatedRequest endpoint
      (JObj (obj_spread [("page", page); ("limit", js_default limit (JNum 20))]
               (default [] params))) w /\
  infiniteScrollRequest endpoint page JUndefined None w =
    paginatedRequest endpoint (JObj [("page", page); ("limit", JNum 20)]) w.
Proof. split; destruct params; reflexivity. Qed.

End Pagination.

Lemma paginatedRequest_unwraps_witness :
  fst (paginatedRequest "/requests" JUndefined (page_load [listing] stored_session)) =
  Resolved
    (JObj [("data", JArr [JStr "a"; JStr "b"]);
           ("pagination",
            JObj [("page", JNum 1); ("limit", JNum 20); ("total", JNum 2);
                  ("pages", JNum 1)])]).
Proof.
  exact (f_equal fst
    (paginatedRequest_unwraps "/requests" JUndefined (page_load [listing] stored_session)
       {| response_status := 200;
          response_data :=
            JObj [("data", JArr [JStr "a"; JStr "b"]);
                  ("pagination",
                   JObj [("page", JNum 1); ("limit", JNum 20); ("total", JNum 2);
                         ("pages", JNum 1)])] |}
       _ eq_refl eq_refl)).
Defined.

(** * Further properties *)

(** ** Every call through [api] *)

Section EveryCall.

Context {E : Environment}.

Lemma wire_request_fields (config : RequestConfig) (w : World E) :
  method (wire_request config w) = method config /\
  url (wire_request config w) = url config /\
  data (wire_request config w) = data config /\
  params (wire_request config w) = params config.
Proof.
  unfold wire_request, bind, merge_config, request_interceptor, bind, getItem, ret.
  simpl. destruct (truthy _); auto.
Qed.

(** The refresh call only follows a request that does not carry the
    marker. *)
Lemma refresh_trace_unmarked (config : RequestConfig) (w : World E) rest :
  trace (snd (api config w)) =
    (trace w ++ EvSend ApiInstance (wire_request config w)
             :: EvSend GlobalAxios (refresh_request (stored_refresh_token w)) :: rest)%list ->
  _retry config = false.
Proof.
  intros Ht. destruct (_retry config) eqn:Hr; [|reflexivity].
  destruct (api_retried_run config w Hr) as (tail & _ & Ht' & Hc & _).
  rewrite Ht' in Ht. apply app_inv_head in Ht. injection Ht as ->.
  inversion Hc as [|? ? (label & payload & Hx) _]. discriminate.
Qed.

(** X1.  Whatever the network answers, a call through [api] puts at most
    three requests on the wire, the first of them its own; at most one of
    them is a refresh call and at most one carries the retry marker. *)
Theorem api_sends_at_most_three (config : RequestConfig) (w : World E) :
  (length (sends (events_during (api config) w)) <= 3)%nat /\
  head (sends (events_during (api config) w)) =
    Some (ApiInstance, wire_request config w) /\
  (refresh_attempts (events_during (api config) w) <= 1)%nat /\
  (retries (events_during (api config) w) <= 1)%nat.
Proof.
  destruct (api_run_cases config w)
    as [(tail & Hc & Ht & _)|[(Ht & _)|(_ & tail & Hc & Ht & _)]];
    rewrite (events_during_app _ _ _ Ht).
  - destruct (counts_console_tail tail [EvSend ApiInstance (wire_request config w)] Hc)
      as (C1 & C2 & C3 & _).
    simpl app in *. rewrite C1, C2, C3. unfold refresh_attempts, retries. simpl.
    destruct (_retry _); simpl; repeat split; lia.
  - unfold refresh_attempts, retries. simpl.
    destruct (_retry _); simpl; repeat split; lia.
  - destruct (counts_console_tail tail
                [EvSend ApiInstance (wire_request config w);
                 EvSend GlobalAxios (refresh_request (stored_refresh_token w));
                 EvSend ApiInstance
                   (wire_request (retried_request config w) (refreshed config w))] Hc)
      as (C1 & C2 & C3 & _).
    pose proof (refresh_trace_unmarked config w _ Ht) as Hr.
    simpl app in *. rewrite C1, C2, C3. unfold refresh_attempts, retries. simpl.
    rewrite !wire_request_retry, Hr. simpl. repeat split; lia.
Qed.

(** A first answer in the 2xx range is the result of the call. *)
Lemma first_success_run (config : RequestConfig) (w : World E) status body :
  first_reply config w = Replied status body ->
  (200 <= status < 300)%Z ->
  api config w =
    (Resolved {| response_status := status; response_data := body |},
     after_first config w).
Proof.
  intros Hf Hs. apply api_first_success. rewrite Hf. simpl.
  replace ((200 <=? status)%Z && (status <? 300)%Z) with true by lia. reflexivity.
Qed.

(** X2.  A first answer in the 2xx range goes through the response
    interceptor as it is: the call resolves with that response after its
    one request, nothing is logged, and storage, default headers and the
    React state are left alone. *)
Theorem success_passes_through (config : RequestConfig) (w : World E) status body :
  first_reply config w = Replied status body ->
  (200 <= status < 300)%Z ->
  api config w =
    (Resolved {| response_status := status; response_data := body |},
     after_first config w) /\
  events_during (api config) w = [EvSend ApiInstance (wire_request config w)] /\
  untouched w (snd (api config w)).
Proof.
  intros Hf Hs.
  rewrite (first_success_run _ _ _ _ Hf Hs). cbn [snd].
  destruct (after_first_frame config w) as (Hu & Ht).
  split; [reflexivity|]. split; [|exact Hu].
  apply events_during_app. rewrite (first_success_run _ _ _ _ Hf Hs). exact Ht.
Qed.

(** The request handed back to [api] after a refresh leaves with the
    renewed token whichever way the request interceptor goes. *)
Lemma retried_request_authorization (config : RequestConfig) (w : World E) :
  headers (wire_request (retried_request config w) (refreshed config w))
    !! "Authorization" =
  Some ("Bearer " +:+ ToString (new_token (refresh_reply config w))).
Proof.
  unfold wire_request, bind, merge_config, request_interceptor, bind, getItem, ret.
  cbn [fst snd].
  assert (Hs : localStorage (refreshed config w) !! "token" =
               Some (ToString (new_token (refresh_reply config w)))).
  { unfold refreshed. simpl. rewrite lookup_insert_ne by discriminate.
    apply lookup_insert_eq. }
  rewrite Hs. simpl.
  destruct (negb _); simpl.
  - apply lookup_insert_eq.
  - apply lookup_union_Some_l, lookup_union_Some_l, lookup_insert_eq.
Qed.

Section Refreshed.

Variables (config : RequestConfig) (w : World E) (body : JSValue).
Hypothesis first_401 : first_reply config w = Replied 401 body.
Hypothesis unmarked : _retry config = false.
Hypothesis has_refresh_token : truthy (stored_refresh_token w) = true.
Hypothesis refresh_ok : refresh_succeeds (refresh_reply config w) = true.

Lemma refreshed_call :
  api config w = api (retried_request config w) (refreshed config w).
Proof.
  destruct (unauthorized_settle (wire_request config w) body) as (error & Hs & H401).
  rewrite <- first_401 in Hs.
  exact (api_refreshed _ _ _ Hs H401 unmarked has_refresh_token refresh_ok).
Qed.

Lemma refreshed_frame :
  localStorage (refreshed config w) =
    <["refreshToken" := ToString (new_refresh_token (refresh_reply config w))]>
      (<["token" := ToString (new_token (refresh_reply config w))]> (localStorage w)) /\
  defaults_common (refreshed config w) =
    <["Authorization" := "Bearer " +:+ ToString (new_token (refresh_reply config w))]>
      (defaults_common w) /\
  trace (refreshed config w) =
    (trace w ++ [EvSend ApiInstance (wire_request config w);
                 EvSend GlobalAxios (refresh_request (stored_refresh_token w))])%list.
Proof.
  destruct (after_refresh_frame config w) as ((U1 & U2 & _) & Ht).
  unfold refreshed. simpl. rewrite U1, U2, Ht. auto.
Qed.

(** X4.  A 401 that can be recovered is handled out of the caller's
    sight: when the refresh succeeds and the retried request is answered
    2xx, the call resolves with the answer to the retry; storage holds the
    renewed tokens and the default header the renewed token; nothing is
    logged and there is no redirect. *)
Theorem recovered_call_resolves status answer :
  first_reply (retried_request config w) (refreshed config w) = Replied status answer ->
  (200 <= status < 300)%Z ->
  fst (api config w) =
    Resolved {| response_status := status; response_data := answer |} /\
  events_during (api config) w =
    [EvSend ApiInstance (wire_request config w);
     EvSend GlobalAxios (refresh_request (stored_refresh_token w));
     EvSend ApiInstance (wire_request (retried_request config w) (refreshed config w))] /\
  localStorage (snd (api config w)) !! "token" =
    Some (ToString (new_token (refresh_reply config w))) /\
  localStorage (snd (api config w)) !! "refreshToken" =
    Some (ToString (new_refresh_token (refresh_reply config w))) /\
  defaults_common (snd (api config w)) !! "Authorization" =
    Some ("Bearer " +:+ ToString (new_token (refresh_reply config w))).
Proof.
  intros Hf Hs.
  pose proof (first_success_run _ _ _ _ Hf Hs) as Hapi.
  destruct refreshed_frame as (F1 & F2 & F3).
  destruct (after_first_frame (retried_request config w) (refreshed config w))
    as ((U1 & U2 & _) & Ht).
  split; [rewrite refreshed_call, Hapi; reflexivity|].
  split.
  { apply events_during_app. rewrite refreshed_call, Hapi. cbn [snd].
    rewrite Ht, F3, <- app_assoc. reflexivity. }
  rewrite refreshed_call, Hapi. cbn [snd].
  rewrite U1, U2, F1, F2.
  split; [rewrite lookup_insert_ne by discriminate; apply lookup_insert_eq|].
  split; apply lookup_insert_eq.
Qed.

(** X5.  When the retried request fails in turn, with an error response
    that has a body or with no response, the caller gets the error of the
    retry; the tokens renewed by the refresh stay in storage and in the
    default header, nothing is removed and there is no redirect to
    [/login]. *)
Theorem failed_retry_keeps_renewed_tokens error :
  settle (wire_request (retried_request config w) (refreshed config w))
    (first_reply (retried_request config w) (refreshed config w)) = inr error ->
  has_body (first_reply (retried_request config w) (refreshed config w)) = true ->
  fst (api config w) = Rejected (ThrowAxios error) /\
  events_during (api config) w =
    [EvSend ApiInstance (wire_request config w);
     EvSend GlobalAxios (refresh_request (stored_refresh_token w));
     EvSend ApiInstance (wire_request (retried_request config w) (refreshed config w));
     console_line (first_reply (retried_request config w) (refreshed config w))] /\
  localStorage (snd (api config w)) !! "token" =
    Some (ToString (new_token (refresh_reply config w))) /\
  localStorage (snd (api config w)) !! "refreshToken" =
    Some (ToString (new_refresh_token (refresh_reply config w))) /\
  defaults_common (snd (api config w)) !! "Authorization" =
    Some ("Bearer " +:+ ToString (new_token (refresh_reply config w))).
Proof.
  intros Hs Hb.
  assert (Hapi : api (retried_request config w) (refreshed config w) =
                 (Rejected (ThrowAxios error),
                  with_event
                    (console_line (first_reply (retried_request config w) (refreshed config w)))
                    (after_first (retried_request config w) (refreshed config w)))).
  { rewrite (api_retried (retried_request config w) (refreshed config w) eq_refl), Hs.
    rewrite <- (with_error_config_id _ _ _ Hs) at 1.
    rewrite (report_error_body _ _ _ _ _ Hs Hb).
    rewrite (with_error_config_id _ _ _ Hs). reflexivity. }
  destruct refreshed_frame as (F1 & F2 & F3).
  destruct (after_first_frame (retried_request config w) (refreshed config w))
    as ((U1 & U2 & _) & Ht).
  split; [rewrite refreshed_call, Hapi; reflexivity|].
  split.
  { apply events_during_app. rewrite refreshed_call, Hapi. cbn [snd trace with_event].
    rewrite Ht, F3, <- !app_assoc. reflexivity. }
  rewrite refreshed_call, Hapi. cbn [snd localStorage defaults_common with_event].
  rewrite U1, U2, F1, F2.
  split; [rewrite lookup_insert_ne by discriminate; apply lookup_insert_eq|].
  split; apply lookup_insert_eq.
Qed.

(** X6.  The retry is the request that failed, sent again: same method,
    url, body and query, now with the marker and with the renewed token as
    its bearer. *)
Theorem retry_resends_with_renewed_token :
  exists retried,
    sends (events_during (api config) w) =
      [(ApiInstance, wire_request config w);
       (GlobalAxios, refresh_request (stored_refresh_token w));
       (ApiInstance, retried)] /\
    method retried = method config /\
    url retried = url config /\
    data retried = data config /\
    params retried = params config /\
    _retry retried = true /\
    headers retried !! "Authorization" =
      Some ("Bearer " +:+ ToString (new_token (refresh_reply config w))).
Proof.
  destruct (run_refreshed config w body first_401 unmarked has_refresh_token refresh_ok)
    as (tail & Hc & Ht & _).
  exists (wire_request (retried_request config w) (refreshed config w)).
  rewrite (events_during_app _ _ _ Ht).
  destruct (counts_console_tail tail
              [EvSend ApiInstance (wire_request config w);
               EvSend GlobalAxios (refresh_request (stored_refresh_token w));
               EvSend ApiInstance
                 (wire_request (retried_request config w) (refreshed config w))] Hc)
    as (C1 & _).
  simpl app in C1. rewrite C1.
  destruct (wire_request_fields (retried_request config w) (refreshed config w))
    as (M1 & M2 & M3 & M4).
  destruct (wire_request_fields config w) as (N1 & N2 & N3 & N4).
  rewrite M1, M2, M3, M4, wire_request_retry. unfold retried_request at 1 2 3 4 5.
  simpl. rewrite N1, N2, N3, N4.
  repeat split. apply retried_request_authorization.
Qed.

(** X7.  A refresh answer that names no [refreshToken] still counts as a
    success, and what goes to storage is the text "undefined": a later 401
    finds a refresh token there and sends it. *)
Theorem refresh_without_refresh_token :
  new_refresh_token (refresh_reply config w) = JUndefined ->
  localStorage (snd (api config w)) !! "refreshToken" = Some "undefined" /\
  truthy (stored_refresh_token (snd (api config w))) = true.
Proof.
  intros Hn.
  destruct (run_refreshed config w body first_401 unmarked has_refresh_token refresh_ok)
    as (tail & _ & _ & Hs & _).
  unfold stored_refresh_token. rewrite Hs, Hn, lookup_insert_eq. split; reflexivity.
Qed.

End Refreshed.

(** X8.  The refresh-failure path clears storage and nothing else: the
    default headers, with any [Authorization] among them, and the React
    state of the provider are as they were. *)
Theorem refresh_failure_keeps_header_and_state (config : RequestConfig) (w : World E) body :
  first_reply config w = Replied 401 body ->
  _retry config = false ->
  truthy (stored_refresh_token w) = true ->
  refresh_succeeds (refresh_reply config w) = false ->
  defaults_common (snd (api config w)) = defaults_common w /\
  auth (snd (api config w)) = auth w.
Proof.
  intros Hf Hr Hrt Hfail.
  destruct (run_refresh_failed config w body Hf Hr Hrt Hfail) as (_ & _ & _ & H).
  exact H.
Qed.

(** X9.  The base URL falls back to [http://localhost:3001/api] when
    [VITE_API_URL] is not set; the URL of the refresh call does not, and
    is then the relative [undefined/auth/refresh-token]. *)
Theorem refresh_url_has_no_fallback (config : RequestConfig) (w : World E) rt :
  VITE_API_URL = None ->
  baseURL config = None ->
  baseURL (wire_request config w) = Some "http://localhost:3001/api" /\
  baseURL (refresh_request rt) = None /\
  url (refresh_request rt) = "undefined/auth/refresh-token".
Proof.
  intros Henv Hb.
  unfold wire_request, bind, merge_config, request_interceptor, bind, getItem, ret,
    refresh_request, api_baseURL, env_VITE_API_URL.
  cbn [fst snd]. rewrite Henv, Hb. destruct (truthy _); simpl; auto.
Qed.

End EveryCall.

(** ** The pagination helpers, at their edges *)

Lemma obj_get_spread (k : string) (target source : Obj) :
  List.NoDup (List.map fst source) ->
  obj_get k (obj_spread target source) =
  if existsb (String.eqb k) (List.map fst source)
  then obj_get k source else obj_get k target.
Proof.
  unfold obj_spread. revert target.
  induction source as [|[k0 v0] source IH]; simpl; intros target Hnd.
  - reflexivity.
  - inversion Hnd as [|? ? Hk Hnd']; subst.
    rewrite IH by exact Hnd'. rewrite obj_get_set.
    destruct (String.eqb k k0) eqn:H0; simpl; [|reflexivity].
    apply String.eqb_eq in H0. subst k0.
    destruct (existsb (String.eqb k) (List.map fst source)) eqn:Hex; [|reflexivity].
    apply existsb_exists in Hex as (x & Hin & Hx).
    apply String.eqb_eq in Hx. subst x. contradiction.
Qed.

Lemma existsb_eqb_In (k : string) (keys : list string) :
  existsb (String.eqb k) keys = true <-> In k keys.
Proof.
  rewrite existsb_exists. split.
  - intros (x & Hin & Hx). apply String.eqb_eq in Hx. subst. exact Hin.
  - intros Hin. exists k. split; [exact Hin|apply String.eqb_refl].
Qed.

Section PaginationEdges.

Context {E : Environment}.

Lemma api_first_send (config : RequestConfig) (w : World E) :
  head (sends (events_during (api config) w)) = Some (ApiInstance, wire_request config w).
Proof.
  destruct (api_run_cases config w)
    as [(tail & _ & Ht & _)|[(Ht & _)|(_ & tail & _ & Ht & _)]];
    rewrite (events_during_app _ _ _ Ht); reflexivity.
Qed.

(** X10.  [paginatedRequest] passes a rejection of its request on as it
    is; a 2xx answer with a [null] body makes it reject with a
    [TypeError]; and a body that lacks [data] or [pagination] is no error:
    the property is [undefined] in the result. *)
Theorem paginatedRequest_edges endpoint params (w : World E) :
  (forall e,
     fst (api_get endpoint (js_default params (JObj [])) w) = Rejected e ->
     fst (paginatedRequest endpoint params w) = Rejected e) /\
  (forall response,
     fst (api_get endpoint (js_default params (JObj [])) w) = Resolved response ->
     is_nullish (response_data response) = true ->
     fst (paginatedRequest endpoint params w) = Rejected (ThrowTypeError "data")) /\
  (forall response,
     fst (api_get endpoint (js_default params (JObj [])) w) = Resolved response ->
     is_nullish (response_data response) = false ->
     fst (paginatedRequest endpoint params w) =
       Resolved (JObj [("data", optional_prop (response_data response) "data");
                       ("pagination",
                        optional_prop (response_data response) "pagination")])).
Proof.
  unfold paginatedRequest, bind, ret, optional_prop.
  destruct (api_get _ _ w) as [r w']. cbn [fst].
  split; [|split].
  - intros e ->. reflexivity.
  - intros response -> Hn. destruct (response_data response); try discriminate; reflexivity.
  - intros response -> Hn. destruct (response_data response); try discriminate; reflexivity.
Qed.

(** X11.  In the query [infiniteScrollRequest] sends, [{ page, limit,
    ...params }], a property of [params] wins: a [page] or a [limit] among
    the params replaces the argument of that name, and only without one
    the query carries the [page] given and the [limit] given, or 20. *)
Theorem infiniteScrollRequest_query endpoint page limit ps (w : World E) :
  List.NoDup (List.map fst ps) ->
  exists req query,
    head (sends (events_during (infiniteScrollRequest endpoint page limit (Some ps)) w)) =
      Some (ApiInstance, req) /\
    method req = GET /\ url req = endpoint /\ params req = JObj query /\
    (forall k, In k (List.map fst ps) -> obj_get k query = obj_get k ps) /\
    (~ In "page" (List.map fst ps) -> obj_get "page" query = page) /\
    (~ In "limit" (List.map fst ps) ->
     obj_get "limit" query = js_default limit (JNum 20)).
Proof.
  intros Hnd.
  set (query := obj_spread [("page", page); ("limit", js_default limit (JNum 20))] ps).
  set (config := {| method := GET; baseURL := None; url := endpoint; data := JUndefined;
                    params := JObj query; headers := ∅; _retry := false |}).
  exists (wire_request config w), query.
  destruct (wire_request_fields config w) as (M1 & M2 & _ & M4).
  split.
  { unfold events_during, infiniteScrollRequest.
    rewrite paginatedRequest_world. apply (api_first_send config w). }
  split; [exact M1|]. split; [exact M2|]. split; [exact M4|].
  split; [|split].
  - intros k Hk. unfold query. rewrite obj_get_spread by exact Hnd.
    apply existsb_eqb_In in Hk. rewrite Hk. reflexivity.
  - intros Hk. unfold query. rewrite obj_get_spread by exact Hnd.
    destruct (existsb _ _) eqn:Hex; [apply existsb_eqb_In in Hex; contradiction|].
    reflexivity.
  - intros Hk. unfold query. rewrite obj_get_spread by exact Hnd.
    destruct (existsb _ _) eqn:Hex; [apply existsb_eqb_In in Hex; contradiction|].
    reflexivity.
Qed.

End PaginationEdges.

(** ** Start-up, path by path *)

Section StartupPaths.

Context {E : Environment}.

Ltac unfold_startup :=
  unfold events_during, startup, initializeAuth, AuthProvider_mount,
    bind, getItem, set_default_header, setLoading, setToken, setUser, ret;
  cbn [fst snd localStorage defaults_common trace auth with_auth with_defaults].

(** X12.  Without both a token and a user in storage (either missing, or
    empty), start-up sends nothing and changes neither storage nor the
    default headers: a token stored without a user stays where it is,
    unverified, and is the token of the React state. *)
Theorem startup_without_credentials (w : World E) :
  truthy (of_item (localStorage w !! "token")) &&
  truthy (of_item (localStorage w !! "user")) = false ->
  fst (startup w) = Resolved tt /\
  events_during startup w = [] /\
  localStorage (snd (startup w)) = localStorage w /\
  defaults_common (snd (startup w)) = defaults_common w /\
  auth (snd (startup w)) =
    {| user := JNull; loading := false; token := of_item (localStorage w !! "token") |}.
Proof.
  intros Hc. unfold_startup. rewrite Hc. simpl.
  repeat split. apply drop_all.
Qed.

Section Verified.

Variables (w : World E) (response : Response).
Hypothesis token_stored : truthy (of_item (localStorage w !! "token")) = true.
Hypothesis user_stored : truthy (of_item (localStorage w !! "user")) = true.
Hypothesis verified :
  fst (api_get "/auth/verify" JUndefined (verifying w)) = Resolved response.

(** X13.  When the server accepts the token and the stored user parses,
    start-up puts the parsed user in the React state and, as token, the
    one it read from storage before the verification, and leaves storage
    as the verification request left it. *)
Theorem startup_restores_session parsed :
  JSON_parse (ToString (of_item (localStorage w !! "user"))) = Some parsed ->
  fst (startup w) = Resolved tt /\
  auth (snd (startup w)) =
    {| user := parsed; loading := false; token := of_item (localStorage w !! "token") |} /\
  localStorage (snd (startup w)) =
    localStorage (snd (api_get "/auth/verify" JUndefined (verifying w))) /\
  defaults_common (snd (startup w)) =
    defaults_common (snd (api_get "/auth/verify" JUndefined (verifying w))).
Proof.
  intros Hp. revert verified. unfold verifying. unfold_startup.
  rewrite token_stored, user_stored. cbn [andb].
  destruct (api_get "/auth/verify" JUndefined _) as [r w2]. cbn [fst snd].
  intros ->. rewrite Hp. simpl. auto.
Qed.

(** X14.  A stored user that is not JSON ends the session although the
    server accepted the token: [JSON.parse] throws inside the [try], so
    the clean-up removes [token] and [user] from storage and the default
    header.  The user of the React state stays [null]; its token, set
    before the parse, stays the stored one. *)
Theorem startup_with_corrupt_user :
  JSON_parse (ToString (of_item (localStorage w !! "user"))) = None ->
  fst (startup w) = Resolved tt /\
  auth (snd (startup w)) =
    {| user := JNull; loading := false; token := of_item (localStorage w !! "token") |} /\
  localStorage (snd (startup w)) !! "token" = None /\
  localStorage (snd (startup w)) !! "user" = None /\
  defaults_common (snd (startup w)) !! "Authorization" = None.
Proof.
  intros Hp.
  pose proof (api_auth
    {| method := GET; baseURL := None; url := "/auth/verify"; data := JUndefined;
       params := JUndefined; headers := ∅; _retry := false |} (verifying w)) as Ha.
  fold (api_get "/auth/verify" JUndefined (verifying w)) in Ha.
  revert verified Ha. unfold verifying. unfold_startup.
  rewrite token_stored, user_stored. cbn [andb].
  destruct (api_get "/auth/verify" JUndefined _) as [r w2]. cbn [fst snd].
  intros -> Ha. rewrite Hp. simpl. rewrite Ha. simpl.
  repeat split.
  - rewrite lookup_delete_ne by discriminate. apply lookup_delete_eq.
  - apply lookup_delete_eq.
  - apply lookup_delete_eq.
Qed.

End Verified.

End StartupPaths.

(** ** After [logout] *)

Section AfterLogout.

Context {E : Environment}.

(** X15.  After [logout], a request whose config sets no [Authorization]
    header leaves without one: neither storage nor the default headers
    have a token to give it. *)
Theorem no_credentials_after_logout (config : RequestConfig) (w : World E) :
  headers config !! "Authorization" = None ->
  headers (wire_request config (snd (logout w))) !! "Authorization" = None.
Proof.
  intros Hc. rewrite logout_eq. cbn [snd].
  destruct (logout_finally_world (snd (api_post "/auth/logout" JUndefined w)))
    as (Hs & Hd & _).
  unfold wire_request, bind, merge_config, request_interceptor, bind, getItem, ret.
  cbn [fst snd]. rewrite Hs, Hd.
  rewrite lookup_delete_ne by discriminate. rewrite lookup_delete_eq. simpl.
  rewrite !lookup_union_None. split; [split|].
  - exact Hc.
  - apply lookup_singleton_ne. discriminate.
  - apply lookup_delete_eq.
Qed.

(** X16.  After [logout] no role check passes: [hasRole] is false for
    every role name, and [hasAnyRole] for every list of role names. *)
Theorem no_role_after_logout (w : World E) (r : string) (names : list string) :
  hasRole (auth (snd (logout w))) (JStr r) = false /\
  hasAnyRole (auth (snd (logout w))) (List.map JStr names) = false.
Proof.
  rewrite logout_eq. cbn [snd].
  destruct (logout_finally_world (snd (api_post "/auth/logout" JUndefined w)))
    as (_ & _ & Ha & _).
  unfold hasRole, hasAnyRole. rewrite Ha. simpl. split; [reflexivity|].
  destruct (includes _ _) eqn:Hi; [|reflexivity].
  apply includes_undefined, in_map_iff in Hi as (x & Hx & _). discriminate.
Qed.

End AfterLogout.

(** ** [login] and [register] *)

Section SigningIn.

Context {E : Environment}.
Variable JSON_stringify : JSValue -> JSValue.

Lemma api_post_trace endpoint body (w : World E) :
  trace (snd (api_post endpoint body w)) =
    (trace w ++ events_during (api_post endpoint body) w)%list.
Proof. unfold api_post. apply api_trace_grows. Qed.

Lemma api_post_auth endpoint body (w : World E) :
  auth (snd (api_post endpoint body w)) = auth w.
Proof. unfold api_post. apply api_auth. Qed.

Section Login.

Variables (email password : JSValue) (w : World E).

(** The login request, sent once [loading] is set. *)
Let request : Settled Response * World E :=
  api_post "/auth/login" (JObj [("email", email); ("password", password)])
    (snd (setLoading true w)).

Lemma login_resolved response :
  fst request = Resolved response ->
  is_nullish (response_data response) = false ->
  fst (login JSON_stringify email password w) = Resolved success /\
  localStorage (snd (login JSON_stringify email password w)) =
    <["user" := ToString (JSON_stringify (optional_prop (response_data response) "user"))]>
      (<["token" := ToString (optional_prop (response_data response) "token")]>
         (localStorage (snd request))) /\
  defaults_common (snd (login JSON_stringify email password w)) =
    <["Authorization" :=
        "Bearer " +:+ ToString (optional_prop (response_data response) "token")]>
      (defaults_common (snd request)) /\
  auth (snd (login JSON_stringify email password w)) =
    {| user := optional_prop (response_data response) "user"; loading := false;
       token := optional_prop (response_data response) "token" |} /\
  events_during (login JSON_stringify email password) w =
    (events_during
       (api_post "/auth/login" (JObj [("email", email); ("password", password)]))
       (snd (setLoading true w)) ++
     [EvToast ToastSuccess (JStr "Login successful!"); EvNavigate "/dashboard"])%list.
Proof.
  intros Hr Hn. unfold events_during at 1.
  pose proof (api_post_trace "/auth/login"
                (JObj [("email", email); ("password", password)])
                (snd (setLoading true w))) as Ht.
  revert Hr Ht. unfold request, login, bind.
  cbn [fst snd setLoading].
  destruct (api_post _ _ _) as [r w1]. cbn [fst snd]. intros -> Ht.
  unfold optional_prop.
  destruct (get_prop (response_data response) "token") as [tok|] eqn:Htok;
    [|destruct (response_data response); discriminate].
  destruct (get_prop (response_data response) "user") as [usr|] eqn:Husr;
    [|destruct (response_data response); discriminate].
  simpl. rewrite Ht, <- !app_assoc.
  repeat split. apply drop_app_length.
Qed.

(** X17.  A login answered 2xx with a body stores the session everywhere
    at once: [token] and the JSON of [user] in storage, the token as
    default [Authorization] header, token and user in the React state;
    then it announces the success, goes to [/dashboard] and resolves with
    [{ success: true }]. *)
Theorem login_stores_session response :
  fst request = Resolved response ->
  is_nullish (response_data response) = false ->
  fst (login JSON_stringify email password w) = Resolved success /\
  localStorage (snd (login JSON_stringify email password w)) !! "token" =
    Some (ToString (optional_prop (response_data response) "token")) /\
  localStorage (snd (login JSON_stringify email password w)) !! "user" =
    Some (ToString (JSON_stringify (optional_prop (response_data response) "user"))) /\
  defaults_common (snd (login JSON_stringify email password w)) !! "Authorization" =
    Some ("Bearer " +:+ ToString (optional_prop (response_data response) "token")) /\
  auth (snd (login JSON_stringify email password w)) =
    {| user := optional_prop (response_data response) "user"; loading := false;
       token := optional_prop (response_data response) "token" |} /\
  events_during (login JSON_stringify email password) w =
    (events_during
       (api_post "/auth/login" (JObj [("email", email); ("password", password)]))
       (snd (setLoading true w)) ++
     [EvToast ToastSuccess (JStr "Login successful!"); EvNavigate "/dashboard"])%list.
Proof.
  intros Hr Hn.
  destruct (login_resolved response Hr Hn) as (H1 & H2 & H3 & H4 & H5).
  rewrite H2, H3.
  split; [exact H1|].
  split; [rewrite lookup_insert_ne by discriminate; apply lookup_insert_eq|].
  split; [apply lookup_insert_eq|].
  split; [apply lookup_insert_eq|]. auto.
Qed.

(** X18.  A 2xx login answer that has no [token] is a success all the
    same: the text "undefined" is stored as token, the default header
    becomes [Bearer undefined], and the token of the React state is
    [undefined]. *)
Theorem login_without_token response fields :
  fst request = Resolved response ->
  response_data response = JObj fields ->
  obj_get "token" fields = JUndefined ->
  fst (login JSON_stringify email password w) = Resolved success /\
  localStorage (snd (login JSON_stringify email password w)) !! "token" =
    Some "undefined" /\
  defaults_common (snd (login JSON_stringify email password w)) !! "Authorization" =
    Some "Bearer undefined" /\
  token (auth (snd (login JSON_stringify email password w))) = JUndefined.
Proof.
  intros Hr Hb Htok.
  assert (Hn : is_nullish (response_data response) = false) by (rewrite Hb; reflexivity).
  destruct (login_resolved response Hr Hn) as (H1 & H2 & H3 & H4 & _).
  rewrite H2, H3, H4. unfold optional_prop. rewrite Hb. simpl. rewrite Htok.
  split; [exact H1|].
  split; [rewrite lookup_insert_ne by discriminate; apply lookup_insert_eq|].
  split; [apply lookup_insert_eq|reflexivity].
Qed.

(** X19.  A login whose request is rejected resolves with [{ success:
    false, message }] and shows that message as an error toast: the
    message of the response when it has one that is truthy, "Login failed.
    Please try again." otherwise.  It writes nothing but [loading]: user
    and token of the React state, storage and the default headers are as
    the request left them. *)
Theorem login_failure error :
  fst request = Rejected error ->
  fst (login JSON_stringify email password w) =
    Resolved
      (JObj [("success", JBool false);
             ("message",
              js_or (response_message error) (JStr "Login failed. Please try again."))]) /\
  events_during (login JSON_stringify email password) w =
    (events_during
       (api_post "/auth/login" (JObj [("email", email); ("password", password)]))
       (snd (setLoading true w)) ++
     [EvToast ToastError
        (js_or (response_message error) (JStr "Login failed. Please try again."))])%list /\
  auth (snd (login JSON_stringify email password w)) =
    {| user := user (auth w); loading := false; token := token (auth w) |} /\
  localStorage (snd (login JSON_stringify email password w)) =
    localStorage (snd request) /\
  defaults_common (snd (login JSON_stringify email password w)) =
    defaults_common (snd request).
Proof.
  intros Hr. unfold events_during at 1.
  pose proof (api_post_trace "/auth/login"
                (JObj [("email", email); ("password", password)])
                (snd (setLoading true w))) as Ht.
  pose proof (api_post_auth "/auth/login"
                (JObj [("email", email); ("password", password)])
                (snd (setLoading true w))) as Ha.
  revert Hr Ht Ha. unfold request, login, bind.
  cbn [fst snd setLoading].
  destruct (api_post _ _ _) as [r w1]. cbn [fst snd]. intros -> Ht Ha.
  simpl. rewrite Ht, Ha, <- !app_assoc. simpl.
  repeat split. apply drop_app_length.
Qed.

(** X20.  [login] resolves in every case and leaves [loading] false; a
    2xx answer whose body is [null] is a failure with the default
    message. *)
Theorem login_always_resolves :
  (exists result, fst (login JSON_stringify email password w) = Resolved result) /\
  loading (auth (snd (login JSON_stringify email password w))) = false /\
  (forall response,
     fst request = Resolved response ->
     is_nullish (response_data response) = true ->
     fst (login JSON_stringify email password w) =
       Resolved (JObj [("success", JBool false);
                       ("message", JStr "Login failed. Please try again.")])).
Proof.
  unfold request, login, bind. cbn [fst snd setLoading].
  destruct (api_post _ _ _) as [[response|error] w1]; cbn [fst snd].
  - destruct (get_prop (response_data response) "token") as [tok|] eqn:Htok;
      destruct (get_prop (response_data response) "user") as [usr|] eqn:Husr;
      simpl; (split; [eauto|]); (split; [reflexivity|]);
      intros response' [= <-] Hn;
      destruct (response_data response); try discriminate; reflexivity.
  - simpl. split; [eauto|]. split; [reflexivity|]. discriminate.
Qed.

End Login.

Section Register.

Variables (userData : JSValue) (w : World E) (response : Response).

Let request : Settled Response * World E :=
  api_post "/auth/register" userData (snd (setLoading true w)).

Hypothesis registered : fst request = Resolved response.

(** X21.  A registration answered 2xx without a truthy [token] signs
    nobody in: after the success toast the router goes to [/login], and
    storage, default headers and the user and token of the React state
    are as the request left them. *)
Theorem register_without_token :
  is_nullish (response_data response) = false ->
  truthy (optional_prop (response_data response) "token") = false ->
  fst (register JSON_stringify userData w) = Resolved success /\
  events_during (register JSON_stringify userData) w =
    (events_during (api_post "/auth/register" userData) (snd (setLoading true w)) ++
     [EvToast ToastSuccess
        (JStr "Registration successful! Please check your email for verification.");
      EvNavigate "/login"])%list /\
  localStorage (snd (register JSON_stringify userData w)) = localStorage (snd request) /\
  defaults_common (snd (register JSON_stringify userData w)) =
    defaults_common (snd request) /\
  auth (snd (register JSON_stringify userData w)) =
    {| user := user (auth w); loading := false; token := token (auth w) |}.
Proof.
  intros Hn Htok. unfold events_during at 1.
  pose proof (api_post_trace "/auth/register" userData (snd (setLoading true w))) as Ht.
  pose proof (api_post_auth "/auth/register" userData (snd (setLoading true w))) as Ha.
  revert registered Ht Ha Htok. unfold request, register, bind, optional_prop.
  cbn [fst snd setLoading].
  destruct (api_post _ _ _) as [r w1]. cbn [fst snd]. intros -> Ht Ha.
  destruct (get_prop (response_data response) "token") as [tok|] eqn:Ht1;
    [|destruct (response_data response); discriminate].
  destruct (get_prop (response_data response) "user") as [usr|] eqn:Hu1;
    [|destruct (response_data response); discriminate].
  intros ->. simpl. rewrite Ht, Ha, <- !app_assoc. simpl.
  repeat split. apply drop_app_length.
Qed.

(** X22.  A registration answered 2xx with a truthy [token] signs the new
    user in as [login] does: token and JSON of the user in storage, the
    default header, the React state, then [/dashboard]. *)
Theorem register_signs_in :
  truthy (optional_prop (response_data response) "token") = true ->
  fst (register JSON_stringify userData w) = Resolved success /\
  events_during (register JSON_stringify userData) w =
    (events_during (api_post "/auth/register" userData) (snd (setLoading true w)) ++
     [EvToast ToastSuccess
        (JStr "Registration successful! Please check your email for verification.");
      EvNavigate "/dashboard"])%list /\
  localStorage (snd (register JSON_stringify userData w)) !! "token" =
    Some (ToString (optional_prop (response_data response) "token")) /\
  localStorage (snd (register JSON_stringify userData w)) !! "user" =
    Some (ToString (JSON_stringify (optional_prop (response_data response) "user"))) /\
  defaults_common (snd (register JSON_stringify userData w)) !! "Authorization" =
    Some ("Bearer " +:+ ToString (optional_prop (response_data response) "token")) /\
  auth (snd (register JSON_stringify userData w)) =
    {| user := optional_prop (response_data response) "user"; loading := false;
       token := optional_prop (response_data response) "token" |}.
Proof.
  intros Htok. unfold events_during at 1.
  pose proof (api_post_trace "/auth/register" userData (snd (setLoading true w))) as Ht.
  revert registered Ht Htok. unfold request, register, bind, optional_prop.
  cbn [fst snd setLoading].
  destruct (api_post _ _ _) as [r w1]. cbn [fst snd]. intros -> Ht.
  destruct (get_prop (response_data response) "token") as [tok|] eqn:Ht1;
    [|discriminate].
  destruct (get_prop (response_data response) "user") as [usr|] eqn:Hu1;
    [|destruct (response_data response); discriminate].
  intros ->. simpl. rewrite Ht, <- !app_assoc. simpl.
  split; [reflexivity|]. split; [apply drop_app_length|].
  split; [rewrite lookup_insert_ne by discriminate; apply lookup_insert_eq|].
  split; [apply lookup_insert_eq|].
  split; [apply lookup_insert_eq|reflexivity].
Qed.

(** X23.  A registration answered 2xx with a [null] body shows both
    toasts: the success toast comes before the body is read, then reading
    [response.data.token] throws and the failure is reported with the
    default message; nothing is stored and the router goes nowhere. *)
Theorem register_null_body :
  is_nullish (response_data response) = true ->
  fst (register JSON_stringify userData w) =
    Resolved (JObj [("success", JBool false);
                    ("message", JStr "Registration failed. Please try again.")]) /\
  events_during (register JSON_stringify userData) w =
    (events_during (api_post "/auth/register" userData) (snd (setLoading true w)) ++
     [EvToast ToastSuccess
        (JStr "Registration successful! Please check your email for verification.");
      EvToast ToastError (JStr "Registration failed. Please try again.")])%list /\
  localStorage (snd (register JSON_stringify userData w)) = localStorage (snd request).
Proof.
  intros Hn. unfold events_during at 1.
  pose proof (api_post_trace "/auth/register" userData (snd (setLoading true w))) as Ht.
  revert registered Ht. unfold request, register, bind.
  cbn [fst snd setLoading].
  destruct (api_post _ _ _) as [r w1]. cbn [fst snd]. intros -> Ht.
  destruct (response_data response); try discriminate; simpl;
    rewrite Ht, <- !app_assoc; simpl; repeat split; apply drop_app_length.
Qed.

End Register.

(** ** [updateUser] *)

(** X24.  [updateUser] merges: in the new user a property of the update
    wins and every other property of the old user is kept; with no
    session the new user is the update alone.  The same object goes to the
    React state and, as JSON, to storage; the token, the other storage
    entries and the default headers are not touched. *)
Theorem updateUser_merges (updatedUser : JSValue) (w : World E) :
  List.NoDup (List.map fst (spread_source (user (auth w)))) ->
  List.NoDup (List.map fst (spread_source updatedUser)) ->
  exists merged,
    user (auth (snd (updateUser JSON_stringify updatedUser w))) = JObj merged /\
    (forall k,
       obj_get k merged =
       if existsb (String.eqb k) (List.map fst (spread_source updatedUser))
       then obj_get k (spread_source updatedUser)
       else obj_get k (spread_source (user (auth w)))) /\
    localStorage (snd (updateUser JSON_stringify updatedUser w)) =
      <["user" := ToString (JSON_stringify (JObj merged))]> (localStorage w) /\
    token (auth (snd (updateUser JSON_stringify updatedUser w))) = token (auth w) /\
    defaults_common (snd (updateUser JSON_stringify updatedUser w)) = defaults_common w.
Proof.
  intros Hold Hnew. eexists. split; [reflexivity|]. split; [|auto].
  intros k. rewrite obj_get_spread by exact Hnew.
  destruct (existsb _ _); [reflexivity|].
  rewrite obj_get_spread by exact Hold.
  destruct (existsb _ _) eqn:Hex; [reflexivity|].
  simpl. clear Hold. induction (spread_source (user (auth w))) as [|[k0 v0] o IH].
  - reflexivity.
  - simpl in *. destruct (String.eqb k k0); [discriminate|]. exact (IH Hex).
Qed.

(** ** The password and e-mail operations *)

(** X25.  [forgotPassword], [resetPassword] and [verifyEmail] never
    reject and never write the React state: each resolves with
    [{ success: true }] when its request resolved and with
    [{ success: false, message }] when it was rejected, the message being
    the one of the response when it has a truthy one and the operation's
    own default otherwise. *)
Theorem password_and_email_operations (a b : JSValue) (w : World E) :
  (auth (snd (forgotPassword a w)) = auth w /\
   fst (forgotPassword a w) =
     Resolved
       match fst (api_post "/auth/forgot-password" (JObj [("email", a)]) w) with
       | Resolved _ => success
       | Rejected error =>
           JObj [("success", JBool false);
                 ("message",
                  js_or (response_message error)
                    (JStr "Failed to send reset instructions"))]
       end) /\
  (auth (snd (resetPassword a b w)) = auth w /\
   fst (resetPassword a b w) =
     Resolved
       match fst (api_post "/auth/reset-password"
                    (JObj [("token", a); ("password", b)]) w) with
       | Resolved _ => success
       | Rejected error =>
           JObj [("success", JBool false);
                 ("message",
                  js_or (response_message error) (JStr "Failed to reset password"))]
       end) /\
  (auth (snd (verifyEmail a w)) = auth w /\
   fst (verifyEmail a w) =
     Resolved
       match fst (api_post "/auth/verify-email" (JObj [("token", a)]) w) with
       | Resolved _ => success
       | Rejected error =>
           JObj [("success", JBool false);
                 ("message",
                  js_or (response_message error) (JStr "Failed to verify email"))]
       end).
Proof.
  split; [|split].
  - pose proof (api_post_auth "/auth/forgot-password" (JObj [("email", a)]) w) as Ha.
    revert Ha. unfold forgotPassword, bind.
    destruct (api_post _ _ _) as [[r|e] w1]; simpl; intros ->; auto.
  - pose proof (api_post_auth "/auth/reset-password"
                  (JObj [("token", a); ("password", b)]) w) as Ha.
    revert Ha. unfold resetPassword, bind.
    destruct (api_post _ _ _) as [[r|e] w1]; simpl; intros ->; auto.
  - pose proof (api_post_auth "/auth/verify-email" (JObj [("token", a)]) w) as Ha.
    revert Ha. unfold verifyEmail, bind.
    destruct (api_post _ _ _) as [[r|e] w1]; simpl; intros ->; auto.
Qed.

End SigningIn.

(** ** The dashboard page *)

(** X26.  The notification panel keeps the ten most recent
    notifications, newest first: whatever arrives, in whatever number, the
    list is the first ten of the arrivals in reverse order. *)
Theorem notifications_keep_ten_newest (arrivals : list JSValue) :
  fold_left (fun prev n => push_notification n prev) arrivals [] =
    take 10 (rev arrivals) /\
  (length (fold_left (fun prev n => push_notification n prev) arrivals []) <= 10)%nat.
Proof.
  assert (G : forall older,
             fold_left (fun prev n => push_notification n prev) arrivals (take 10 older) =
             take 10 (rev arrivals ++ older)).
  { induction arrivals as [|n ns IH]; intros older; simpl.
    - reflexivity.
    - unfold push_notification at 2. rewrite take_take.
      change (n :: take (9 `min` 10) older) with (take 10 (n :: older)).
      rewrite IH, <- app_assoc. reflexivity. }
  specialize (G []). rewrite app_nil_r in G. simpl in G. rewrite G.
  split; [reflexivity|]. rewrite length_take. lia.
Qed.

(** X27.  A [new-request] event reaches the panel of an admin or a
    moderator only: for a user with any other role name the list is
    unchanged; for those two the notification made of the request goes to
    the front and the nine most recent of the others stay. *)
Theorem new_request_is_for_staff (now request : JSValue) (props : Obj) (r : string)
    (prev : list JSValue) :
  obj_get "role" props = JStr r ->
  (r <> "ADMIN" -> r <> "MODERATOR" ->
   on_new_request now (JObj props) request prev = inr prev) /\
  (forall fields,
     r = "ADMIN" \/ r = "MODERATOR" ->
     request = JObj fields ->
     exists notification,
       on_new_request now (JObj props) request prev =
         inr (JObj notification :: take 9 prev) /\
       obj_get "type" notification = JStr "new-request" /\
       obj_get "message" notification =
         JStr ("New " +:+ ToString (obj_get "category" fields) +:+ " request: "
               +:+ ToString (obj_get "title" fields)) /\
       obj_get "timestamp" notification = now).
Proof.
  intros Hr. unfold on_new_request. simpl. rewrite Hr. split.
  - intros Ha Hm. simpl.
    destruct (String.eqb r "ADMIN") eqn:H1; [apply String.eqb_eq in H1; contradiction|].
    destruct (String.eqb r "MODERATOR") eqn:H2; [apply String.eqb_eq in H2; contradiction|].
    reflexivity.
  - intros fields Hstaff ->.
    assert (Hs : strict_eq (JStr r) (JStr "ADMIN") || strict_eq (JStr r) (JStr "MODERATOR")
                 = true).
    { destruct Hstaff as [-> | ->]; reflexivity. }
    rewrite Hs. eexists. split; [reflexivity|]. repeat split.
Qed.

Section DashboardQueries.

Context {E : Environment}.

(** X28.  The queries of the dashboard read the answer without a guard.
    On a 2xx answer whose body has no [data], the dashboard query resolves
    with [undefined], and the queries for the recent requests and the
    upcoming events reject with a [TypeError]; on one whose body has a
    [data], they resolve with its [requests] and its [events]. *)
Theorem dashboard_queries_edges (w : World E) :
  (forall response,
     fst (api_get "/dashboard" JUndefined w) = Resolved response ->
     is_nullish (response_data response) = false ->
     fst (dashboard_query w) = Resolved (optional_prop (response_data response) "data")) /\
  (forall response,
     fst (api_get "/requests?limit=5&sortBy=createdAt&sortOrder=desc" JUndefined w) =
       Resolved response ->
     is_nullish (response_data response) = false ->
     fst (recent_requests_query w) =
       if is_nullish (optional_prop (response_data response) "data")
       then Rejected (ThrowTypeError "requests")
       else Resolved
              (optional_prop (optional_prop (response_data response) "data") "requests")) /\
  (forall response,
     fst (api_get "/events?limit=3&status=UPCOMING" JUndefined w) = Resolved response ->
     is_nullish (response_data response) = false ->
     fst (upcoming_events_query w) =
       if is_nullish (optional_prop (response_data response) "data")
       then Rejected (ThrowTypeError "events")
       else Resolved
              (optional_prop (optional_prop (response_data response) "data") "events")).
Proof.
  unfold dashboard_query, recent_requests_query, upcoming_events_query, list_query,
    bind, ret, optional_prop.
  split; [|split].
  - destruct (api_get _ _ w) as [r w']. cbn [fst]. intros response -> Hn.
    destruct (response_data response); try discriminate; reflexivity.
  - destruct (api_get _ _ w) as [r w']. cbn [fst]. intros response -> Hn.
    destruct (get_prop (response_data response) "data") as [d|] eqn:Hd;
      [|destruct (response_data response); discriminate].
    destruct d; reflexivity.
  - destruct (api_get _ _ w) as [r w']. cbn [fst]. intros response -> Hn.
    destruct (get_prop (response_data response) "data") as [d|] eqn:Hd;
      [|destruct (response_data response); discriminate].
    destruct d; reflexivity.
Qed.

End DashboardQueries.

(** ** The statements above, run on the scenarios *)

Lemma success_passes_through_witness :
  events_during (api get_requests) (page_load [listing] stored_session) =
  [EvSend ApiInstance (wire_request get_requests (page_load [listing] stored_session))].
Proof.
  refine (proj1 (proj2 (success_passes_through get_requests
                          (page_load [listing] stored_session) 200 _ eq_refl _))).
  lia.
Defined.

Lemma recovered_call_resolves_witness :
  localStorage
    (snd (api get_requests (page_load [expired; renewed; listing] stored_session)))
    !! "token" = Some "t2".
Proof.
  refine (proj1 (proj2 (proj2
    (recovered_call_resolves get_requests
       (page_load [expired; renewed; listing] stored_session)
       (JObj [("message", JStr "Token expired")])
       eq_refl eq_refl eq_refl eq_refl 200 _ eq_refl _)))).
  lia.
Defined.

Lemma failed_retry_keeps_renewed_tokens_witness :
  localStorage
    (snd (api get_requests (page_load [expired; renewed; expired] stored_session)))
    !! "refreshToken" = Some "r2".
Proof.
  exact (proj1 (proj2 (proj2 (proj2
    (failed_retry_keeps_renewed_tokens get_requests
       (page_load [expired; renewed; expired] stored_session)
       (JObj [("message", JStr "Token expired")])
       eq_refl eq_refl eq_refl eq_refl _ eq_refl eq_refl))))).
Defined.


Lemma retry_resends_with_renewed_token_witness :
  exists retried,
    sends (events_during (api get_requests)
             (page_load [expired; renewed; listing] stored_session)) =
      [(ApiInstance,
        wire_request get_requests (page_load [expired; renewed; listing] stored_session));
       (GlobalAxios,
        refresh_request (E := scripted [expired; renewed; listing]) (JStr "r1"));
       (ApiInstance, retried)] /\
    method retried = GET /\
    url retried = "/requests" /\
    data retried = JUndefined /\
    params retried = JUndefined /\
    _retry retried = true /\
    headers retried !! "Authorization" = Some "Bearer t2".
Proof.
  exact (retry_resends_with_renewed_token get_requests
           (page_load [expired; renewed; listing] stored_session)
           (JObj [("message", JStr "Token expired")])
           eq_refl eq_refl eq_refl eq_refl).
Defined.

Lemma refresh_without_refresh_token_witness :
  localStorage
    (snd (api get_requests
            (page_load [expired; renewed_token_only; listing] stored_session)))
    !! "refreshToken" = Some "undefined".
Proof.
  exact (proj1
    (refresh_without_refresh_token get_requests
       (page_load [expired; renewed_token_only; listing] stored_session)
       (JObj [("message", JStr "Token expired")])
       eq_refl eq_refl eq_refl eq_refl eq_refl)).
Defined.

Lemma refresh_failure_keeps_header_and_state_witness :
  auth (snd (api get_requests (page_load [expired; expired] stored_session))) =
  auth (page_load [expired; expired] stored_session).
Proof.
  exact (proj2
    (refresh_failure_keeps_header_and_state get_requests
       (page_load [expired; expired] stored_session)
       (JObj [("message", JStr "Token expired")])
       eq_refl eq_refl eq_refl eq_refl)).
Defined.

Lemma refresh_url_has_no_fallback_witness :
  baseURL (wire_request get_requests (page_load_unconfigured [expired] stored_session)) =
    Some "http://localhost:3001/api" /\
  baseURL (refresh_request (E := unconfigured [expired]) (JStr "r1")) = None /\
  url (refresh_request (E := unconfigured [expired]) (JStr "r1")) =
    "undefined/auth/refresh-token".
Proof.
  exact (refresh_url_has_no_fallback get_requests
           (page_load_unconfigured [expired] stored_session) (JStr "r1")
           eq_refl eq_refl).
Defined.

Lemma paginatedRequest_edges_witness :
  fst (paginatedRequest "/requests" JUndefined (page_load [empty_ok] stored_session)) =
  Rejected (ThrowTypeError "data").
Proof.
  exact (proj1 (proj2
    (paginatedRequest_edges "/requests" JUndefined (page_load [empty_ok] stored_session)))
    {| response_status := 200; response_data := JNull |} eq_refl eq_refl).
Defined.

Lemma infiniteScrollRequest_query_witness :
  exists req query,
    head (sends (events_during
                   (infiniteScrollRequest "/requests" (JNum 2) JUndefined
                      (Some [("status", JStr "open"); ("page", JNum 9)]))
                   (page_load [listing] stored_session))) =
      Some (ApiInstance, req) /\
    method req = GET /\ url req = "/requests" /\ params req = JObj query /\
    (forall k, In k ["status"; "page"] ->
               obj_get k query = obj_get k [("status", JStr "open"); ("page", JNum 9)]) /\
    (~ In "page" ["status"; "page"] -> obj_get "page" query = JNum 2) /\
    (~ In "limit" ["status"; "page"] -> obj_get "limit" query = JNum 20).
Proof.
  apply (infiniteScrollRequest_query "/requests" (JNum 2) JUndefined
           [("status", JStr "open"); ("page", JNum 9)]
           (page_load [listing] stored_session)).
  repeat constructor; simpl; intuition discriminate.
Defined.

Lemma startup_without_credentials_witness :
  events_during startup (page_load [listing] token_only) = [] /\
  localStorage (snd (startup (page_load [listing] token_only))) !! "token" = Some "t1".
Proof.
  destruct (startup_without_credentials (page_load [listing] token_only) eq_refl)
    as (_ & H1 & H2 & _).
  split; [exact H1|]. rewrite H2. reflexivity.
Defined.

Lemma startup_restores_session_witness :
  auth (snd (startup (page_load [listing] stored_session))) =
  {| user := JObj []; loading := false; token := JStr "t1" |}.
Proof.
  exact (proj1 (proj2
    (startup_restores_session (page_load [listing] stored_session)
       _ eq_refl eq_refl eq_refl (JObj []) eq_refl))).
Defined.

Lemma startup_with_corrupt_user_witness :
  localStorage (snd (startup (page_load [listing] corrupt_session))) !! "token" = None.
Proof.
  exact (proj1 (proj2 (proj2
    (startup_with_corrupt_user (page_load [listing] corrupt_session)
       _ eq_refl eq_refl eq_refl eq_refl)))).
Defined.

Lemma no_credentials_after_logout_witness :
  headers (wire_request get_requests
             (snd (logout (page_load [listing] stored_session))))
    !! "Authorization" = None.
Proof.
  exact (no_credentials_after_logout get_requests
           (page_load [listing] stored_session) eq_refl).
Defined.

Lemma login_stores_session_witness :
  localStorage
    (snd (login stringify_plain (JStr "ana@example.org") (JStr "secret")
            (page_load [signed_in] ∅)))
    !! "token" = Some "t9".
Proof.
  exact (proj1 (proj2
    (login_stores_session stringify_plain (JStr "ana@example.org") (JStr "secret")
       (page_load [signed_in] ∅) _ eq_refl eq_refl))).
Defined.

Lemma login_without_token_witness :
  localStorage
    (snd (login stringify_plain (JStr "ana@example.org") (JStr "secret")
            (page_load [signed_in_without_token] ∅)))
    !! "token" = Some "undefined".
Proof.
  exact (proj1 (proj2
    (login_without_token stringify_plain (JStr "ana@example.org") (JStr "secret")
       (page_load [signed_in_without_token] ∅) _ _ eq_refl eq_refl eq_refl))).
Defined.

Lemma login_failure_witness :
  fst (login stringify_plain (JStr "ana@example.org") (JStr "wrong")
         (page_load [wrong_password] ∅)) =
  Resolved (JObj [("success", JBool false); ("message", JStr "Invalid credentials")]).
Proof.
  exact (proj1
    (login_failure stringify_plain (JStr "ana@example.org") (JStr "wrong")
       (page_load [wrong_password] ∅) _ eq_refl)).
Defined.

Lemma login_always_resolves_witness :
  fst (login stringify_plain (JStr "ana@example.org") (JStr "secret")
         (page_load [empty_ok] ∅)) =
  Resolved (JObj [("success", JBool false);
                  ("message", JStr "Login failed. Please try again.")]).
Proof.
  exact (proj2 (proj2
    (login_always_resolves stringify_plain (JStr "ana@example.org") (JStr "secret")
       (page_load [empty_ok] ∅)))
    {| response_status := 200; response_data := JNull |} eq_refl eq_refl).
Defined.

Lemma register_without_token_witness :
  localStorage
    (snd (register stringify_plain (JObj [("email", JStr "ana@example.org")])
            (page_load [registered_unverified] ∅))) = ∅.
Proof.
  refine (eq_trans (proj1 (proj2 (proj2
    (register_without_token stringify_plain (JObj [("email", JStr "ana@example.org")])
       (page_load [registered_unverified] ∅) _ eq_refl eq_refl eq_refl)))) _).
  vm_compute. reflexivity.
Defined.

Lemma register_signs_in_witness :
  localStorage
    (snd (register stringify_plain (JObj [("email", JStr "ana@example.org")])
            (page_load [signed_in] ∅)))
    !! "token" = Some "t9".
Proof.
  exact (proj1 (proj2 (proj2
    (register_signs_in stringify_plain (JObj [("email", JStr "ana@example.org")])
       (page_load [signed_in] ∅) _ eq_refl eq_refl)))).
Defined.

Lemma register_null_body_witness :
  fst (register stringify_plain (JObj [("email", JStr "ana@example.org")])
         (page_load [empty_ok] ∅)) =
  Resolved (JObj [("success", JBool false);
                  ("message", JStr "Registration failed. Please try again.")]).
Proof.
  exact (proj1
    (register_null_body stringify_plain (JObj [("email", JStr "ana@example.org")])
       (page_load [empty_ok] ∅) _ eq_refl eq_refl)).
Defined.

Lemma updateUser_merges_witness :
  exists merged,
    user (auth (snd (updateUser stringify_plain (JObj [("role", JStr "VOLUNTEER")])
                       (snd (startup (page_load [listing] stored_session))))))
      = JObj merged /\
    obj_get "role" merged = JStr "VOLUNTEER".
Proof.
  destruct (updateUser_merges stringify_plain (JObj [("role", JStr "VOLUNTEER")])
              (snd (startup (page_load [listing] stored_session))))
    as (merged & Hu & Hm & _).
  - vm_compute. constructor.
  - repeat constructor. simpl. tauto.
  - exists merged. split; [exact Hu|]. rewrite Hm. reflexivity.
Defined.

Lemma new_request_is_for_staff_witness :
  on_new_request (JStr "2026-01-01T00:00:00Z") a_member a_request [JStr "older"] =
  inr [JStr "older"].
Proof.
  refine (proj1
    (new_request_is_for_staff (JStr "2026-01-01T00:00:00Z") a_request
       [("id", JNum 3); ("role", JStr "MEMBER")] "MEMBER" [JStr "older"] eq_refl) _ _);
    discriminate.
Defined.

Lemma dashboard_queries_edges_witness :
  fst (recent_requests_query (page_load [bare_ok] stored_session)) =
  Rejected (ThrowTypeError "requests").
Proof.
  exact (proj1 (proj2 (dashboard_queries_edges (page_load [bare_ok] stored_session)))
           {| response_status := 200;
              response_data := JObj [("success", JBool true)] |} eq_refl eq_refl).
Defined.
